(** * Browser resolution of telemetry: [browser_finder.py]

    A shallow embedding of
    [telemetry/telemetry/internal/browser/browser_finder.py] and the
    properties of its resolution algorithm.

    The collaborators of the module are kept abstract: the three backend
    finder modules, [device_finder.GetDevicesMatchingOptions] and the
    methods of the candidate objects.  Every call to a collaborator is
    recorded as an event in a trace, so that statements such as "fails
    before any backend is queried" or "the hook runs exactly once" are
    statements about the trace of a run.  Calls to [logging] are not
    recorded.  The functions are embedded without their [decorators.Cache]
    decorator; the decorator is a definition of its own, [Cache]. *)

From Stdlib Require Import ZArith Lia String Ascii List Sorting.Sorted.
From stdpp Require Import base option list sorting strings gmap.

Local Open Scope string_scope.
Local Open Scope list_scope.

(** ** Python strings: comparison *)

(** [sorted] compares [str] values lexicographically by character code. *)
Definition str_le (s t : string) : Prop := String.leb s t = true.

#[global] Instance str_le_dec : RelDecision str_le.
Proof. intros s t. unfold str_le. apply bool_eq_dec. Defined.

(** [s.startswith(p)]. *)
Definition startswith (s p : string) : bool := String.prefix p s.

(** [x in l] for a list of strings. *)
Definition str_in (x : string) (l : list string) : bool :=
  existsb (String.eqb x) l.

(** [l.index(x)]: the first position of [x]; [None] stands for the
    [ValueError] Python raises when [x] does not occur. *)
Fixpoint list_index (x : string) (l : list string) : option nat :=
  match l with
  | [] => None
  | y :: l' => if String.eqb y x then Some O else S <$> list_index x l'
  end.

(** [l.index] as a function of the element looked up. *)
Definition list_index_in (l : list string) (x : string) : option nat :=
  list_index x l.

(** [option] attributes compared with a string literal: [o == s]. *)
Definition opt_is (o : option string) (s : string) : bool :=
  match o with
  | Some t => String.eqb t s
  | None => false
  end.

(** [o is not None]. *)
Definition is_set (o : option string) : bool :=
  match o with
  | Some _ => true
  | None => false
  end.

(** Truth value of an attribute that is [None] or a string. *)
Definition truthy (o : option string) : bool :=
  match o with
  | Some (String _ _) => true
  | _ => false
  end.

(** ** Data model *)

Module PossibleBrowser.
(** The attributes and methods of a candidate that the module reads.
    [SupportsOptions] is a query on the candidate. *)
Record t {BrowserOptions : Type} : Type := mk {
  browser_type : string;
  target_os : string;
  last_modification_time : Z;
  SupportsOptions : BrowserOptions -> bool
}.
Arguments t : clear implicits.
Arguments mk {BrowserOptions}.
End PossibleBrowser.

Module BrowserFinderOptions.
(** The options object.  [class_name] is [options.__class__.__name__];
    [fake_possible_browser] is read only on the test double. *)
Record t {BrowserOptions : Type} : Type := mk {
  class_name : string;
  browser_type : option string;
  browser_executable : option string;
  cros_remote : option string;
  browser_options : BrowserOptions;
  fake_possible_browser : option (PossibleBrowser.t BrowserOptions)
}.
Arguments t : clear implicits.
Arguments mk {BrowserOptions}.
End BrowserFinderOptions.

(** The modules listed in [BROWSER_FINDERS]. *)
Inductive BrowserFinderModule : Type :=
  | desktop_browser_finder
  | android_browser_finder
  | cros_browser_finder.

Definition BROWSER_FINDERS : list BrowserFinderModule :=
  [desktop_browser_finder; android_browser_finder; cros_browser_finder].

Module Backend.
(** The three functions every backend finder module exposes. *)
Record t {BrowserOptions Device : Type} : Type := mk {
  FindAllBrowserTypes :
    BrowserFinderOptions.t BrowserOptions -> list string;
  FindAllAvailableBrowsers :
    BrowserFinderOptions.t BrowserOptions -> option Device ->
    list (PossibleBrowser.t BrowserOptions);
  SelectDefaultBrowser :
    list (PossibleBrowser.t BrowserOptions) ->
    option (PossibleBrowser.t BrowserOptions)
}.
Arguments t : clear implicits.
Arguments mk {BrowserOptions Device}.
End Backend.

(** ** Exceptions, events and runs *)

Inductive Exn : Type :=
  | BrowserFinderException (msg : string)
  | BrowserTypeRequiredException (msg : string)
  | ValueError.

Inductive Event {BrowserOptions Device : Type} : Type :=
  | GetDevicesMatchingOptions_call
  | FindAllBrowserTypes_call (finder : BrowserFinderModule)
  | FindAllAvailableBrowsers_call
      (finder : BrowserFinderModule) (device : option Device)
  | SelectDefaultBrowser_call (finder : BrowserFinderModule)
  | UpdateExecutableIfNeeded_call (b : PossibleBrowser.t BrowserOptions).
Arguments Event : clear implicits.

(** A run yields the trace of collaborator calls it made and either the
    exception it raised or the value it returned. *)
Definition Run (E A : Type) : Type := list E * (Exn + A).

Definition ret {E A} (a : A) : Run E A := ([], inr a).
Definition raise {E A} (e : Exn) : Run E A := ([], inl e).
Definition emit {E} (ev : E) : Run E unit := ([ev], inr tt).
Definition bind {E A B} (m : Run E A) (k : A -> Run E B) : Run E B :=
  match m with
  | (tr, inl e) => (tr, inl e)
  | (tr, inr a) => let '(tr', r) := k a in (tr ++ tr', r)
  end.

Notation "'do' x <- m ; k" := (bind m (fun x => k))
  (at level 10, x name, m at level 100, k at level 200).

(** [for x in l: s = body(s, x)]. *)
Fixpoint for_each {E A S} (l : list A) (body : S -> A -> Run E S) (s : S)
  : Run E S :=
  match l with
  | [] => ret s
  | x :: l' => do s' <- body s x; for_each l' body s'
  end.

(** ** [max] and [min] with a key *)

(** The scan of [max(l, key=...)]: the candidate is replaced only by a
    strictly greater key, so the first maximal element is kept. *)
Fixpoint max_scan {A} (key : A -> Z) (best : A) (l : list A) : A :=
  match l with
  | [] => best
  | x :: l' => if (key best <? key x)%Z then max_scan key x l'
               else max_scan key best l'
  end.

(** [max(l, key=key)]; [None] stands for the [ValueError] on an empty
    sequence. *)
Definition py_max {A} (key : A -> Z) (l : list A) : option A :=
  match l with
  | [] => None
  | x :: l' => Some (max_scan key x l')
  end.

(** The scan of [min(l, key=...)] for a key that may raise: the key of
    every element is computed in order, the candidate is replaced only by
    a strictly smaller key. *)
Fixpoint min_scan {A} (key : A -> option nat) (best : A) (kbest : nat)
  (l : list A) : option A :=
  match l with
  | [] => Some best
  | x :: l' =>
      match key x with
      | None => None
      | Some kx => if (kx <? kbest)%nat then min_scan key x kx l'
                   else min_scan key best kbest l'
      end
  end.

(** [min(l, key=key)] on a non-empty [x :: l']; [None] stands for the
    exception raised by [key]. *)
Definition py_min {A} (key : A -> option nat) (x : A) (l' : list A)
  : option A :=
  match key x with
  | None => None
  | Some kx => min_scan key x kx l'
  end.

(** ** The module *)

Section BrowserFinder.
Context {BrowserOptions Device : Type}.

Abbreviation Options := (BrowserFinderOptions.t BrowserOptions).
Abbreviation Browser := (PossibleBrowser.t BrowserOptions).
Abbreviation Ev := (Event BrowserOptions Device).
Abbreviation M := (Run Ev).

(** The backend finder modules and the device finder. *)
Variable backend : BrowserFinderModule -> Backend.t BrowserOptions Device.
Variable GetDevicesMatchingOptions : Options -> list (option Device).

(** Calls to the collaborators. *)
Definition call_GetDevicesMatchingOptions (options : Options)
  : M (list (option Device)) :=
  do _ <- emit GetDevicesMatchingOptions_call;
  ret (GetDevicesMatchingOptions options).

Definition call_FindAllBrowserTypes (finder : BrowserFinderModule)
  (options : Options) : M (list string) :=
  do _ <- emit (FindAllBrowserTypes_call finder);
  ret (Backend.FindAllBrowserTypes (backend finder) options).

Definition call_FindAllAvailableBrowsers (finder : BrowserFinderModule)
  (options : Options) (device : option Device) : M (list Browser) :=
  do _ <- emit (FindAllAvailableBrowsers_call finder device);
  ret (Backend.FindAllAvailableBrowsers (backend finder) options device).

Definition call_SelectDefaultBrowser (finder : BrowserFinderModule)
  (curr_browsers : list Browser) : M (option Browser) :=
  do _ <- emit (SelectDefaultBrowser_call finder);
  ret (Backend.SelectDefaultBrowser (backend finder) curr_browsers).

Definition UpdateExecutableIfNeeded (b : Browser) : M unit :=
  emit (UpdateExecutableIfNeeded_call b).

(** [FindAllBrowserTypes(options)], lines 23-27. *)
Definition FindAllBrowserTypes (options : Options) : M (list string) :=
  for_each BROWSER_FINDERS
    (fun browsers bf =>
       do ts <- call_FindAllBrowserTypes bf options;
       ret (browsers ++ ts))
    [].

(** The four checks at the head of [FindBrowser], lines 45-59. *)
Definition check_options (options : Options) : M unit :=
  let browser_type := BrowserFinderOptions.browser_type options in
  let browser_executable := BrowserFinderOptions.browser_executable options in
  let cros_remote := BrowserFinderOptions.cros_remote options in
  if opt_is browser_type "exact" && negb (is_set browser_executable)
  then raise (BrowserFinderException
                "--browser=exact requires --browser-executable to be set.")
  else if negb (opt_is browser_type "exact") && is_set browser_executable
  then raise (BrowserFinderException
                "--browser-executable requires --browser=exact.")
  else if opt_is browser_type "cros-chrome" && negb (is_set cros_remote)
  then raise (BrowserFinderException
                "browser_type=cros-chrome requires cros_remote be set.")
  else if negb (opt_is browser_type "cros-chrome") &&
          negb (opt_is browser_type "cros-chrome-guest") &&
          is_set cros_remote
  then raise (BrowserFinderException
                "--remote requires --browser=cros-chrome or cros-chrome-guest.")
  else ret tt.

(** The aggregation loop of [FindBrowser], lines 61-73: the body run for
    one [device] and one [finder] on the two accumulators. *)
Definition aggregate_step (options : Options) (device : option Device)
  (acc : list Browser * list Browser) (finder : BrowserFinderModule)
  : M (list Browser * list Browser) :=
  let '(browsers, default_browsers) := acc in
  let browser_type := BrowserFinderOptions.browser_type options in
  do skip <-
    (if truthy browser_type && negb (opt_is browser_type "any")
     then do ts <- call_FindAllBrowserTypes finder options;
          ret (negb (str_in (default "" browser_type) ts))
     else ret false);
  if skip : bool then ret acc
  else
    do curr_browsers <- call_FindAllAvailableBrowsers finder options device;
    do new_default_browser <- call_SelectDefaultBrowser finder curr_browsers;
    let default_browsers' :=
      match new_default_browser with
      | Some d => default_browsers ++ [d]
      | None => default_browsers
      end in
    ret (browsers ++ curr_browsers, default_browsers').

(** Lines 61-73: the devices are enumerated, then every backend is run
    on every device; the result is [(browsers, default_browsers)]. *)
Definition Aggregate (options : Options)
  : M (list Browser * list Browser) :=
  do devices <- call_GetDevicesMatchingOptions options;
  for_each devices
    (fun acc device =>
       for_each BROWSER_FINDERS (aggregate_step options device) acc)
    ([], []).

(** The separator of the message, a newline. *)
Definition newline : string := String (ascii_of_nat 10) EmptyString.

(** [sorted(set(names))]. *)
Definition sorted_set (names : list string) : list string :=
  merge_sort str_le (elements (list_to_set names : gset string)).

(** [lambda b: b.last_modification_time]. *)
Definition key_time (b : Browser) : Z :=
  PossibleBrowser.last_modification_time b.

(** The end of [FindBrowser], lines 115-119. *)
Definition finish (chosen_browser : option Browser) : M (option Browser) :=
  match chosen_browser with
  | Some b => do _ <- UpdateExecutableIfNeeded b; ret (Some b)
  | None => ret None
  end.

(** The selection of [FindBrowser], lines 75-119, on the two lists the
    aggregation loop built. *)
Definition Resolve (options : Options)
  (browsers default_browsers : list Browser) : M (option Browser) :=
  match browsers with
  | [] => ret None
  | browsers_0 :: browsers_rest =>
    match BrowserFinderOptions.browser_type options with
    | None =>
      match default_browsers with
      | _ :: _ =>
        match py_max key_time default_browsers with
        | Some default_browser =>
          do _ <- UpdateExecutableIfNeeded default_browser;
          ret (Some default_browser)
        | None => raise ValueError
        end
      | [] =>
        if (length browsers =? 1)%nat
        then do _ <- UpdateExecutableIfNeeded browsers_0;
             ret (Some browsers_0)
        else raise (BrowserTypeRequiredException
               ("--browser must be specified. Available browsers:" ++
                newline ++
                String.concat newline
                  (sorted_set (map PossibleBrowser.browser_type browsers))))
      end
    | Some browser_type =>
      if String.eqb browser_type "any"
      then
        do types <- FindAllBrowserTypes options;
        match py_min (fun b => list_index (PossibleBrowser.browser_type b) types)
                browsers_0 browsers_rest with
        | Some chosen_browser => finish (Some chosen_browser)
        | None => raise ValueError
        end
      else
        let matching_browsers :=
          List.filter (fun b =>
             String.eqb (PossibleBrowser.browser_type b) browser_type &&
             PossibleBrowser.SupportsOptions b
               (BrowserFinderOptions.browser_options options))
            browsers in
        match matching_browsers with
        | [] => ret None
        | _ :: _ =>
          match py_max key_time matching_browsers with
          | Some chosen_browser => finish (Some chosen_browser)
          | None => raise ValueError
          end
        end
    end
  end.

(** [FindBrowser(options)], lines 31-119, without its decorator. *)
Definition FindBrowser (options : Options) : M (option Browser) :=
  if String.eqb (BrowserFinderOptions.class_name options)
       "_FakeBrowserFinderOptions"
  then ret (BrowserFinderOptions.fake_possible_browser options)
  else
    do _ <- check_options options;
    do acc <- Aggregate options;
    Resolve options acc.1 acc.2.

(** [GetAllAvailableBrowsers(options, device)], lines 123-142, without
    its decorator.  [not device] holds of [None]. *)
Definition GetAllAvailableBrowsers (options : Options)
  (device : option Device) : M (list Browser) :=
  match device with
  | None => ret []
  | Some _ =>
    for_each BROWSER_FINDERS
      (fun possible_browsers browser_finder =>
         do bs <- call_FindAllAvailableBrowsers browser_finder options device;
         ret (possible_browsers ++ bs))
      []
  end.

(** The test of lines 166-167 on one candidate. *)
Definition is_desktop_os (b : Browser) : bool :=
  let target_os := PossibleBrowser.target_os b in
  String.eqb target_os "darwin" || startswith target_os "linux" ||
  startswith target_os "win".

(** The loop of lines 165-169: add ["reference"] at the first candidate
    that passes the test, then leave the loop. *)
Fixpoint add_reference (possible_browsers : list Browser)
  (type_list : gset string) : gset string :=
  match possible_browsers with
  | [] => type_list
  | browser :: rest =>
    if is_desktop_os browser then {[ "reference" ]} ∪ type_list
    else add_reference rest type_list
  end.

(** [GetAllAvailableBrowserTypes(options)], lines 146-170, without its
    decorator, the call of line 161 running the body of
    [GetAllAvailableBrowsers].  The call through the decorator is
    [GetAllAvailableBrowserTypes_through_cache] below. *)
Definition GetAllAvailableBrowserTypes (options : Options)
  : M (list string) :=
  do devices <- call_GetDevicesMatchingOptions options;
  do possible_browsers <-
    for_each devices
      (fun possible_browsers device =>
         do bs <- GetAllAvailableBrowsers options device;
         ret (possible_browsers ++ bs))
      [];
  let type_list : gset string :=
    list_to_set (map PossibleBrowser.browser_type possible_browsers) in
  let type_list := add_reference possible_browsers type_list in
  ret (merge_sort str_le (elements type_list)).

End BrowserFinder.

(** ** The memoizing decorator *)

(** Modelled from the spec: [decorators.Cache], whose source is not part
    of this module.  The store of a decorated function lives as long as
    the process.  A call whose key is in the store returns the stored
    result and runs nothing; otherwise the function runs and the result
    it returns is stored under the key.  A run that raises stores
    nothing.  [cache_key] derives the key from the arguments; two
    configurations are structurally equal when their keys are. *)
Definition Cache {E Opt R} (cache_key : Opt -> string)
  (f : Opt -> Run E R) (store : gmap string R) (options : Opt)
  : gmap string R * Run E R :=
  match store !! cache_key options with
  | Some r => (store, ret r)
  | None =>
    match f options with
    | (tr, inr r) => (<[cache_key options := r]> store, (tr, inr r))
    | (tr, inl e) => (store, (tr, inl e))
    end
  end.

(** [GetAllAvailableBrowsers] as the module exports it, lines 122-123:
    the body under [decorators.Cache], the key derived from both
    arguments. *)
Definition GetAllAvailableBrowsers_through_cache {BrowserOptions Device}
  (backend : BrowserFinderModule -> Backend.t BrowserOptions Device)
  (cache_key : BrowserFinderOptions.t BrowserOptions * option Device -> string)
  (store : gmap string (list (PossibleBrowser.t BrowserOptions)))
  (options : BrowserFinderOptions.t BrowserOptions) (device : option Device)
  : gmap string (list (PossibleBrowser.t BrowserOptions)) *
    Run (Event BrowserOptions Device) (list (PossibleBrowser.t BrowserOptions)) :=
  Cache cache_key
    (fun args => GetAllAvailableBrowsers backend args.1 args.2)
    store (options, device).

(** The loop of lines 160-161 with the call of line 161 going through
    the decorator: the store is threaded from one device to the next. *)
Fixpoint possible_browsers_through_cache {BrowserOptions Device}
  (backend : BrowserFinderModule -> Backend.t BrowserOptions Device)
  (cache_key : BrowserFinderOptions.t BrowserOptions * option Device -> string)
  (options : BrowserFinderOptions.t BrowserOptions)
  (devices : list (option Device))
  (store : gmap string (list (PossibleBrowser.t BrowserOptions)))
  (possible_browsers : list (PossibleBrowser.t BrowserOptions))
  : gmap string (list (PossibleBrowser.t BrowserOptions)) *
    Run (Event BrowserOptions Device) (list (PossibleBrowser.t BrowserOptions)) :=
  match devices with
  | [] => (store, ret possible_browsers)
  | device :: rest =>
    match GetAllAvailableBrowsers_through_cache backend cache_key store
            options device with
    | (store1, (tr, inr bs)) =>
      match possible_browsers_through_cache backend cache_key options rest
              store1 (possible_browsers ++ bs) with
      | (store2, (tr', r)) => (store2, (tr ++ tr', r))
      end
    | (store1, (tr, inl e)) => (store1, (tr, inl e))
    end
  end.

(** [GetAllAvailableBrowserTypes(options)], lines 146-170, with the call
    of line 161 going through the decorator of [GetAllAvailableBrowsers];
    [store] is the store of that decorator when the call starts. *)
Definition GetAllAvailableBrowserTypes_through_cache {BrowserOptions Device}
  (backend : BrowserFinderModule -> Backend.t BrowserOptions Device)
  (GetDevicesMatchingOptions :
     BrowserFinderOptions.t BrowserOptions -> list (option Device))
  (cache_key : BrowserFinderOptions.t BrowserOptions * option Device -> string)
  (store : gmap string (list (PossibleBrowser.t BrowserOptions)))
  (options : BrowserFinderOptions.t BrowserOptions)
  : gmap string (list (PossibleBrowser.t BrowserOptions)) *
    Run (Event BrowserOptions Device) (list string) :=
  let devices := GetDevicesMatchingOptions options in
  match possible_browsers_through_cache backend cache_key options devices
          store [] with
  | (store', (tr, inr possible_browsers)) =>
    let type_list : gset string :=
      list_to_set (map PossibleBrowser.browser_type possible_browsers) in
    let type_list := add_reference possible_browsers type_list in
    (store', (GetDevicesMatchingOptions_call :: tr,
              inr (merge_sort str_le (elements type_list))))
  | (store', (tr, inl e)) =>
    (store', (GetDevicesMatchingOptions_call :: tr, inl e))
  end.

(** ** Vocabulary of the statements *)

(** [b] is the first element of [l] whose key is maximal. *)
Definition first_max {A} (key : A -> Z) (l : list A) (b : A) : Prop :=
  exists l1 l2, l = l1 ++ b :: l2 /\
    (forall y, y ∈ l1 -> (key y < key b)%Z) /\
    (forall y, y ∈ l2 -> (key y <= key b)%Z).

(** [b] is the first element of [l] whose key is minimal, every key
    being defined. *)
Definition first_min {A} (key : A -> option nat) (l : list A) (b : A)
  : Prop :=
  exists kb l1 l2, l = l1 ++ b :: l2 /\ key b = Some kb /\
    (forall y, y ∈ l1 -> exists ky, key y = Some ky /\ (kb < ky)%nat) /\
    (forall y, y ∈ l2 -> exists ky, key y = Some ky /\ (kb <= ky)%nat).

(** [n] is the first position at which [l] holds [x]. *)
Definition first_position (l : list string) (x : string) (n : nat) : Prop :=
  l !! n = Some x /\ forall m, (m < n)%nat -> l !! m <> Some x.

(** [b] is the first element of [bs] whose type has the least first
    position in [types], every type of [bs] occurring in [types]. *)
Definition first_of_least_position {BrowserOptions} (types : list string)
  (bs : list (PossibleBrowser.t BrowserOptions))
  (b : PossibleBrowser.t BrowserOptions) : Prop :=
  exists kb l1 l2, bs = l1 ++ b :: l2 /\
    first_position types (PossibleBrowser.browser_type b) kb /\
    (forall y, y ∈ l1 ->
       exists ky, first_position types (PossibleBrowser.browser_type y) ky /\
                  (kb < ky)%nat) /\
    (forall y, y ∈ l2 ->
       exists ky, first_position types (PossibleBrowser.browser_type y) ky /\
                  (kb <= ky)%nat).

(** The candidates whose hook ran, in the order of the calls. *)
Definition updates {BrowserOptions Device}
  (tr : list (Event BrowserOptions Device))
  : list (PossibleBrowser.t BrowserOptions) :=
  flat_map (fun ev => match ev with
                      | UpdateExecutableIfNeeded_call b => [b]
                      | _ => []
                      end) tr.

Definition is_fake {BrowserOptions}
  (options : BrowserFinderOptions.t BrowserOptions) : Prop :=
  BrowserFinderOptions.class_name options = "_FakeBrowserFinderOptions".

(** The four conditions under which the configuration is rejected. *)
Definition rejected {BrowserOptions}
  (options : BrowserFinderOptions.t BrowserOptions) : Prop :=
  let browser_type := BrowserFinderOptions.browser_type options in
  let browser_executable := BrowserFinderOptions.browser_executable options in
  let cros_remote := BrowserFinderOptions.cros_remote options in
  (browser_type = Some "exact" /\ browser_executable = None) \/
  (browser_type <> Some "exact" /\ browser_executable <> None) \/
  (browser_type = Some "cros-chrome" /\ cros_remote = None) \/
  (browser_type <> Some "cros-chrome" /\
   browser_type <> Some "cros-chrome-guest" /\ cros_remote <> None).

Definition raises_BrowserFinderException {E A} (m : Run E A) : Prop :=
  exists msg, m.2 = inl (BrowserFinderException msg).

(** A backend reports no default when it has no candidate. *)
Definition no_default_without_candidate {BrowserOptions Device}
  (backend : BrowserFinderModule -> Backend.t BrowserOptions Device)
  : Prop :=
  forall finder, Backend.SelectDefaultBrowser (backend finder) [] = None.

Definition finder_eqb (f g : BrowserFinderModule) : bool :=
  match f, g with
  | desktop_browser_finder, desktop_browser_finder
  | android_browser_finder, android_browser_finder
  | cros_browser_finder, cros_browser_finder => true
  | _, _ => false
  end.

(** The number of [FindAllAvailableBrowsers] calls a trace holds for one
    backend finder. *)
Definition is_discovery_by {BrowserOptions Device}
  (finder : BrowserFinderModule) (ev : Event BrowserOptions Device) : bool :=
  match ev with
  | FindAllAvailableBrowsers_call g _ => finder_eqb g finder
  | _ => false
  end.

Definition discovery_calls {BrowserOptions Device}
  (finder : BrowserFinderModule) (tr : list (Event BrowserOptions Device))
  : nat :=
  length (List.filter (is_discovery_by finder) tr).

(** [target_os] names macOS, Linux or Windows. *)
Definition desktop_os {BrowserOptions}
  (b : PossibleBrowser.t BrowserOptions) : Prop :=
  let target_os := PossibleBrowser.target_os b in
  target_os = "darwin" \/
  (exists r, target_os = String.append "linux" r) \/
  (exists r, target_os = String.append "win" r).

Definition not_update {BrowserOptions Device}
  (ev : Event BrowserOptions Device) : Prop :=
  match ev with
  | UpdateExecutableIfNeeded_call _ => False
  | _ => True
  end.

(** The invariant of the aggregation loop used below: defaults come with
    candidates. *)
Definition aggregate_inv {BrowserOptions Device}
  (backend : BrowserFinderModule -> Backend.t BrowserOptions Device)
  (acc : list (PossibleBrowser.t BrowserOptions) *
         list (PossibleBrowser.t BrowserOptions)) : Prop :=
  no_default_without_candidate backend -> acc.2 <> [] -> acc.1 <> [].

(** The candidates of [browsers] that an explicit [browser_type]
    selects. *)
Definition matches {BrowserOptions}
  (options : BrowserFinderOptions.t BrowserOptions) (browser_type : string)
  (b : PossibleBrowser.t BrowserOptions) : Prop :=
  PossibleBrowser.browser_type b = browser_type /\
  PossibleBrowser.SupportsOptions b
    (BrowserFinderOptions.browser_options options) = true.

(** The position of a candidate's type in the list of all types. *)
Definition type_index {BrowserOptions} (types : list string)
  (b : PossibleBrowser.t BrowserOptions) : option nat :=
  list_index (PossibleBrowser.browser_type b) types.

(** The three calls [FindAllBrowserTypes] makes. *)
Definition FindAllBrowserTypes_calls {BrowserOptions Device}
  : list (Event BrowserOptions Device) :=
  [FindAllBrowserTypes_call desktop_browser_finder;
   FindAllBrowserTypes_call android_browser_finder;
   FindAllBrowserTypes_call cros_browser_finder].

(** The message of [BrowserTypeRequiredException] for a list of names. *)
Definition type_required_message (names : list string) : string :=
  "--browser must be specified. Available browsers:" ++ newline ++
  String.concat newline names.

(** [b] is reported by some backend on some matching device that is not
    [None]: the candidates [GetAllAvailableBrowserTypes] collects. *)
Definition discovered {BrowserOptions Device}
  (backend : BrowserFinderModule -> Backend.t BrowserOptions Device)
  (GetDevicesMatchingOptions :
     BrowserFinderOptions.t BrowserOptions -> list (option Device))
  (options : BrowserFinderOptions.t BrowserOptions)
  (b : PossibleBrowser.t BrowserOptions) : Prop :=
  exists (d : Device) (finder : BrowserFinderModule),
    Some d ∈ GetDevicesMatchingOptions options /\
    b ∈ Backend.FindAllAvailableBrowsers (backend finder) options (Some d).

(** ** Vocabulary of the further properties *)

(** The types the three backends declare, in the order of
    [BROWSER_FINDERS]. *)
Definition declared_types {BrowserOptions Device}
  (backend : BrowserFinderModule -> Backend.t BrowserOptions Device)
  (options : BrowserFinderOptions.t BrowserOptions) : list string :=
  Backend.FindAllBrowserTypes (backend desktop_browser_finder) options
  ++ Backend.FindAllBrowserTypes (backend android_browser_finder) options
  ++ Backend.FindAllBrowserTypes (backend cros_browser_finder) options.

(** The test of lines 66-67 asks a backend for its types. *)
Definition type_is_explicit {BrowserOptions}
  (options : BrowserFinderOptions.t BrowserOptions) : bool :=
  truthy (BrowserFinderOptions.browser_type options) &&
  negb (opt_is (BrowserFinderOptions.browser_type options) "any").

(** The test of lines 66-67 holds: the backend is passed over. *)
Definition finder_skipped {BrowserOptions Device}
  (backend : BrowserFinderModule -> Backend.t BrowserOptions Device)
  (options : BrowserFinderOptions.t BrowserOptions)
  (finder : BrowserFinderModule) : bool :=
  type_is_explicit options &&
  negb (str_in (default "" (BrowserFinderOptions.browser_type options))
          (Backend.FindAllBrowserTypes (backend finder) options)).

(** What one backend finds on one device, and the default it names
    among that. *)
Definition found_by {BrowserOptions Device}
  (backend : BrowserFinderModule -> Backend.t BrowserOptions Device)
  (options : BrowserFinderOptions.t BrowserOptions)
  (device : option Device) (finder : BrowserFinderModule)
  : list (PossibleBrowser.t BrowserOptions) :=
  Backend.FindAllAvailableBrowsers (backend finder) options device.

Definition default_by {BrowserOptions Device}
  (backend : BrowserFinderModule -> Backend.t BrowserOptions Device)
  (options : BrowserFinderOptions.t BrowserOptions)
  (device : option Device) (finder : BrowserFinderModule)
  : list (PossibleBrowser.t BrowserOptions) :=
  match Backend.SelectDefaultBrowser (backend finder)
          (found_by backend options device finder) with
  | Some d => [d]
  | None => []
  end.

(** The backends that are not passed over, in the order of
    [BROWSER_FINDERS]. *)
Definition asked_finders {BrowserOptions Device}
  (backend : BrowserFinderModule -> Backend.t BrowserOptions Device)
  (options : BrowserFinderOptions.t BrowserOptions)
  (finders : list BrowserFinderModule) : list BrowserFinderModule :=
  List.filter (fun f => negb (finder_skipped backend options f)) finders.

(** The two lists the aggregation loop builds, as plain lists. *)
Definition aggregated_browsers {BrowserOptions Device}
  (backend : BrowserFinderModule -> Backend.t BrowserOptions Device)
  (GetDevicesMatchingOptions :
     BrowserFinderOptions.t BrowserOptions -> list (option Device))
  (options : BrowserFinderOptions.t BrowserOptions)
  : list (PossibleBrowser.t BrowserOptions) :=
  flat_map (fun device =>
      flat_map (found_by backend options device)
        (asked_finders backend options BROWSER_FINDERS))
    (GetDevicesMatchingOptions options).

Definition aggregated_defaults {BrowserOptions Device}
  (backend : BrowserFinderModule -> Backend.t BrowserOptions Device)
  (GetDevicesMatchingOptions :
     BrowserFinderOptions.t BrowserOptions -> list (option Device))
  (options : BrowserFinderOptions.t BrowserOptions)
  : list (PossibleBrowser.t BrowserOptions) :=
  flat_map (fun device =>
      flat_map (default_by backend options device)
        (asked_finders backend options BROWSER_FINDERS))
    (GetDevicesMatchingOptions options).

(** The calls one round of the aggregation loop makes. *)
Definition step_calls {BrowserOptions Device}
  (backend : BrowserFinderModule -> Backend.t BrowserOptions Device)
  (options : BrowserFinderOptions.t BrowserOptions)
  (device : option Device) (finder : BrowserFinderModule)
  : list (Event BrowserOptions Device) :=
  (if type_is_explicit options then [FindAllBrowserTypes_call finder]
   else []) ++
  (if finder_skipped backend options finder then []
   else [FindAllAvailableBrowsers_call finder device;
         SelectDefaultBrowser_call finder]).

(** The calls of the whole aggregation loop, after the enumeration of
    the devices. *)
Definition aggregate_calls {BrowserOptions Device}
  (backend : BrowserFinderModule -> Backend.t BrowserOptions Device)
  (GetDevicesMatchingOptions :
     BrowserFinderOptions.t BrowserOptions -> list (option Device))
  (options : BrowserFinderOptions.t BrowserOptions)
  : list (Event BrowserOptions Device) :=
  flat_map (fun device =>
      flat_map (step_calls backend options device) BROWSER_FINDERS)
    (GetDevicesMatchingOptions options).

(** A backend's default is one of the candidates it was given. *)
Definition defaults_among_candidates {BrowserOptions Device}
  (backend : BrowserFinderModule -> Backend.t BrowserOptions Device)
  : Prop :=
  forall finder l d,
    Backend.SelectDefaultBrowser (backend finder) l = Some d -> d ∈ l.

(** Events that are a call to one backend's [FindAllAvailableBrowsers]
    or [SelectDefaultBrowser]. *)
Definition is_select_by {BrowserOptions Device}
  (finder : BrowserFinderModule) (ev : Event BrowserOptions Device) : bool :=
  match ev with
  | SelectDefaultBrowser_call g => finder_eqb g finder
  | _ => false
  end.

Definition select_calls {BrowserOptions Device}
  (finder : BrowserFinderModule) (tr : list (Event BrowserOptions Device))
  : nat :=
  length (List.filter (is_select_by finder) tr).

Definition is_GetDevices {BrowserOptions Device}
  (ev : Event BrowserOptions Device) : bool :=
  match ev with
  | GetDevicesMatchingOptions_call => true
  | _ => false
  end.

(** The calls [GetAllAvailableBrowsers] makes on one device. *)
Definition device_calls {BrowserOptions Device} (device : option Device)
  : list (Event BrowserOptions Device) :=
  match device with
  | None => []
  | Some _ =>
    map (fun finder => FindAllAvailableBrowsers_call finder device)
      BROWSER_FINDERS
  end.

(** What [GetAllAvailableBrowsers] returns for one device. *)
Definition candidates_on {BrowserOptions Device}
  (backend : BrowserFinderModule -> Backend.t BrowserOptions Device)
  (options : BrowserFinderOptions.t BrowserOptions)
  (device : option Device) : list (PossibleBrowser.t BrowserOptions) :=
  match device with
  | None => []
  | Some _ => flat_map (found_by backend options device) BROWSER_FINDERS
  end.

(** The four messages of [BrowserFinderException]. *)
Definition msg_exact_requires_executable : string :=
  "--browser=exact requires --browser-executable to be set.".
Definition msg_executable_requires_exact : string :=
  "--browser-executable requires --browser=exact.".
Definition msg_cros_requires_remote : string :=
  "browser_type=cros-chrome requires cros_remote be set.".
Definition msg_remote_requires_cros : string :=
  "--remote requires --browser=cros-chrome or cros-chrome-guest.".

(** ** Sample configurations

    Concrete backends, devices and options on which the statements
    below are exercised.  Devices are numbered; the option sub-object is
    trivial and every candidate supports it unless said otherwise. *)

Module Sample.

Abbreviation Options := (BrowserFinderOptions.t unit).
Abbreviation Browser := (PossibleBrowser.t unit).

Definition browser (browser_type target_os : string) (time : Z) : Browser :=
  PossibleBrowser.mk browser_type target_os time (fun _ => true).

Definition options (browser_type browser_executable cros_remote
  : option string) : Options :=
  BrowserFinderOptions.mk "BrowserFinderOptions" browser_type
    browser_executable cros_remote tt None.

Definition fake_options (browser_type browser_executable cros_remote
  : option string) (b : option Browser) : Options :=
  BrowserFinderOptions.mk "_FakeBrowserFinderOptions" browser_type
    browser_executable cros_remote tt b.

Definition release : Browser := browser "release" "linux" 100.
Definition debug : Browser := browser "debug" "linux" 200.
Definition debug_old : Browser := browser "debug" "linux" 50.
Definition exact : Browser := browser "exact" "linux" 10.
Definition android_chromium : Browser :=
  browser "android-chromium" "android" 200.
Definition canary : Browser := browser "canary" "darwin" 300.

Definition desktop_types : list string :=
  ["exact"; "release"; "debug"; "canary"].
Definition android_types : list string :=
  ["android-chromium"; "android-chrome"].
Definition cros_types : list string :=
  ["cros-chrome"; "cros-chrome-guest"; "system"].

(** The most recent candidate, as the desktop and Android finders pick
    their default. *)
Definition newest (l : list Browser) : option Browser :=
  py_max PossibleBrowser.last_modification_time l.

Definition no_default (l : list Browser) : option Browser := None.

(** Backends given by what the desktop finder and the Android finder
    find on each device and by how a default is picked; the ChromeOS
    finder finds nothing. *)
Definition backends
  (on_desktop on_android : option nat -> list Browser)
  (select : list Browser -> option Browser)
  (finder : BrowserFinderModule) : Backend.t unit nat :=
  match finder with
  | desktop_browser_finder =>
      Backend.mk (fun _ => desktop_types) (fun _ d => on_desktop d) select
  | android_browser_finder =>
      Backend.mk (fun _ => android_types) (fun _ d => on_android d) select
  | cros_browser_finder =>
      Backend.mk (fun _ => cros_types) (fun _ _ => []) no_default
  end.

Definition on_device (n : nat) (l : list Browser) (d : option nat)
  : list Browser :=
  match d with
  | Some m => if (m =? n)%nat then l else []
  | None => []
  end.

(** One desktop device with a release build, one phone. *)
Definition two_defaults : BrowserFinderModule -> Backend.t unit nat :=
  backends (on_device 0 [release]) (on_device 1 [android_chromium]) newest.

(** The same candidates, no backend naming a default. *)
Definition no_defaults : BrowserFinderModule -> Backend.t unit nat :=
  backends (on_device 0 [release]) (on_device 1 [android_chromium])
    no_default.

(** A desktop with three local builds, two of them of type "debug". *)
Definition desktop_only : BrowserFinderModule -> Backend.t unit nat :=
  backends (on_device 0 [debug_old; release; debug; exact])
    (fun _ => []) no_default.

Definition nightly : Browser := browser "nightly" "linux" 400.

(** A desktop on which a build of a type no backend declares is found. *)
Definition undeclared_type : BrowserFinderModule -> Backend.t unit nat :=
  backends (on_device 0 [release; nightly]) (fun _ => []) no_default.

(** A desktop with a release build and a phone, the phone seen first. *)
Definition phone_first : BrowserFinderModule -> Backend.t unit nat :=
  backends (on_device 1 [release]) (on_device 0 [android_chromium])
    no_default.

Definition devices_none (_ : Options) : list (option nat) := [].

(** Backends that find nothing and still name a default. *)
Definition default_from_nothing : BrowserFinderModule -> Backend.t unit nat :=
  backends (fun _ => []) (fun _ => []) (fun _ => Some release).

(** A desktop finder that finds its release build whatever the device,
    and a list of matching devices that holds [None] only. *)
Definition local_release : BrowserFinderModule -> Backend.t unit nat :=
  backends (fun _ => [release]) (fun _ => []) no_default.

Definition devices_null (_ : Options) : list (option nat) := [None].

(** A key made of the attributes the module reads. *)
Definition cache_key (o : Options) : string :=
  String.concat ","
    [BrowserFinderOptions.class_name o;
     default "None" (BrowserFinderOptions.browser_type o);
     default "None" (BrowserFinderOptions.browser_executable o);
     default "None" (BrowserFinderOptions.cros_remote o)].

(** A key for the two arguments of [GetAllAvailableBrowsers]. *)
Fixpoint tally (n : nat) : string :=
  match n with
  | O => ""
  | S m => String "I" (tally m)
  end.

Definition device_key (args : Options * option nat) : string :=
  String.concat "@"
    [cache_key args.1;
     match args.2 with
     | None => "None"
     | Some n => tally n
     end].

Definition devices_0_0 (_ : Options) : list (option nat) :=
  [Some 0%nat; Some 0%nat].

Definition devices_0_1 (_ : Options) : list (option nat) := [Some 0%nat; Some 1%nat].
Definition devices_0 (_ : Options) : list (option nat) := [Some 0%nat].

End Sample.

(** * Properties *)

(** ** The order on strings *)

Lemma ascii_compare_lt_trans (a b c : ascii) :
  Ascii.compare a b = Lt -> Ascii.compare b c = Lt -> Ascii.compare a c = Lt.
Proof.
  unfold Ascii.compare. rewrite !N.compare_lt_iff. apply N.lt_trans.
Qed.

Lemma string_compare_refl (s : string) : String.compare s s = Eq.
Proof.
  induction s as [|a s IH]; simpl; [reflexivity|].
  unfold Ascii.compare. rewrite N.compare_refl. exact IH.
Qed.

Lemma string_compare_lt_trans (s t u : string) :
  String.compare s t = Lt -> String.compare t u = Lt ->
  String.compare s u = Lt.
Proof.
  revert t u. induction s as [|a s IH]; intros [|b t] [|c u]; simpl;
    try congruence.
  destruct (Ascii.compare a b) eqn:Hab; try discriminate.
  - apply Ascii.compare_eq_iff in Hab. subst b.
    destruct (Ascii.compare a c); try congruence. apply IH.
  - destruct (Ascii.compare b c) eqn:Hbc; try discriminate.
    + apply Ascii.compare_eq_iff in Hbc. subst c. rewrite Hab. reflexivity.
    + rewrite (ascii_compare_lt_trans _ _ _ Hab Hbc). reflexivity.
Qed.

#[global] Instance str_le_total : Total str_le.
Proof. intros s t. apply String.leb_total. Qed.

#[global] Instance str_le_refl : Reflexive str_le.
Proof.
  intros s. unfold str_le, String.leb. rewrite string_compare_refl.
  reflexivity.
Qed.

#[global] Instance str_le_trans : Transitive str_le.
Proof.
  intros s t u. unfold str_le, String.leb.
  destruct (String.compare s t) eqn:Hst; try discriminate; intros _.
  - apply String.compare_eq_iff in Hst. subst t. tauto.
  - destruct (String.compare t u) eqn:Htu; try discriminate; intros _.
    + apply String.compare_eq_iff in Htu. subst u. rewrite Hst. reflexivity.
    + rewrite (string_compare_lt_trans _ _ _ Hst Htu). reflexivity.
Qed.

#[global] Instance str_le_antisym : AntiSymm eq str_le.
Proof. intros s t. apply String.leb_antisym. Qed.

(** [sorted(set(names))] is ascending, has no duplicate and holds
    exactly the members of [names]. *)
Lemma sorted_elements_spec (X : gset string) :
  StronglySorted str_le (merge_sort str_le (elements X)) /\
  NoDup (merge_sort str_le (elements X)) /\
  forall t, t ∈ merge_sort str_le (elements X) <-> t ∈ X.
Proof.
  split; [apply StronglySorted_merge_sort; apply _|].
  split.
  - rewrite merge_sort_Permutation. apply NoDup_elements.
  - intros t. rewrite merge_sort_Permutation. apply elem_of_elements.
Qed.

Lemma sorted_set_spec (names : list string) :
  StronglySorted str_le (sorted_set names) /\
  NoDup (sorted_set names) /\
  forall t, t ∈ sorted_set names <-> t ∈ names.
Proof.
  unfold sorted_set.
  destruct (sorted_elements_spec (list_to_set names)) as (H1 & H2 & H3).
  repeat split; try assumption; intros H.
  - apply H3 in H. by apply elem_of_list_to_set in H.
  - apply H3. by apply elem_of_list_to_set.
Qed.

Lemma str_in_spec (x : string) (l : list string) :
  str_in x l = true <-> x ∈ l.
Proof.
  unfold str_in. rewrite existsb_exists, list_elem_of_In. split.
  - intros (y & Hy & Heq). apply String.eqb_eq in Heq. by subst.
  - intros H. exists x. split; [done|]. apply String.eqb_refl.
Qed.

Lemma list_index_is_Some (x : string) (l : list string) :
  x ∈ l -> is_Some (list_index x l).
Proof.
  induction l as [|y l IH]; [by intros ?%elem_of_nil|].
  intros H. simpl. destruct (String.eqb y x) eqn:E; [by eexists|].
  apply String.eqb_neq in E. apply elem_of_cons in H as [->|H]; [done|].
  destruct (IH H) as [n ->]. by eexists.
Qed.

(** [l.index(x)] is the first position holding [x]. *)
Lemma list_index_spec (x : string) (l : list string) (n : nat) :
  list_index x l = Some n <->
  l !! n = Some x /\ forall m, (m < n)%nat -> l !! m <> Some x.
Proof.
  revert n. induction l as [|y l IH]; intros n; simpl.
  - split; [done|]. by intros [? _].
  - destruct (String.eqb y x) eqn:E.
    + apply String.eqb_eq in E. subst y. split.
      * intros [= <-]. split; [done|]. lia.
      * intros [_ H]. destruct n as [|n]; [done|].
        exfalso. apply (H O); [lia|done].
    + apply String.eqb_neq in E. split.
      * destruct (list_index x l) as [k|] eqn:Hk; [|done].
        intros [= <-]. destruct (proj1 (IH k) eq_refl) as [H1 H2].
        split; [done|]. intros [|m] Hm; simpl; [congruence|].
        apply H2. lia.
      * intros [H1 H2]. destruct n as [|n]; [simpl in H1; congruence|].
        simpl in H1.
        assert (list_index x l = Some n) as ->; [|done].
        apply IH. split; [done|]. intros m Hm. apply (H2 (S m)). lia.
Qed.

(** ** [max] and [min] *)

Lemma max_scan_spec {A} (key : A -> Z) (l pre mid : list A) (best : A) :
  (forall y, y ∈ pre -> (key y < key best)%Z) ->
  (forall y, y ∈ mid -> (key y <= key best)%Z) ->
  first_max key (pre ++ best :: mid ++ l) (max_scan key best l).
Proof.
  revert pre mid best.
  induction l as [|x l IH]; intros pre mid best Hpre Hmid; simpl.
  - exists pre, mid. by rewrite app_nil_r.
  - destruct (Z.ltb_spec (key best) (key x)) as [Hlt|Hge].
    + specialize (IH (pre ++ best :: mid) [] x).
      rewrite <- app_assoc in IH. simpl in IH. apply IH.
      * intros y [Hy|Hy]%elem_of_app.
        -- specialize (Hpre y Hy). lia.
        -- apply elem_of_cons in Hy as [->|Hy]; [done|].
           specialize (Hmid y Hy). lia.
      * by intros y ?%elem_of_nil.
    + specialize (IH pre (mid ++ [x]) best).
      rewrite <- app_assoc in IH. simpl in IH. apply IH; [done|].
      intros y [Hy|Hy]%elem_of_app; [by apply Hmid|].
      apply list_elem_of_singleton in Hy as ->. done.
Qed.

(** [max(l, key=key)] of a non-empty list is its first maximal element. *)
Lemma py_max_spec {A} (key : A -> Z) (l : list A) :
  l <> [] -> exists b, py_max key l = Some b /\ first_max key l b.
Proof.
  destruct l as [|x l]; [done|]. intros _. eexists. split; [done|].
  apply (max_scan_spec key l [] [] x); by intros y ?%elem_of_nil.
Qed.

Lemma min_scan_spec {A} (key : A -> option nat) (l pre mid : list A)
  (best : A) (kbest : nat) :
  key best = Some kbest ->
  (forall y, y ∈ pre -> exists ky, key y = Some ky /\ (kbest < ky)%nat) ->
  (forall y, y ∈ mid -> exists ky, key y = Some ky /\ (kbest <= ky)%nat) ->
  (forall y, y ∈ l -> is_Some (key y)) ->
  exists b, min_scan key best kbest l = Some b /\
            first_min key (pre ++ best :: mid ++ l) b.
Proof.
  revert pre mid best kbest.
  induction l as [|x l IH]; intros pre mid best kbest Hk Hpre Hmid Hl; simpl.
  - exists best. split; [done|]. exists kbest, pre, mid.
    by rewrite app_nil_r.
  - destruct (Hl x) as [kx Hkx]; [by left|]. rewrite Hkx.
    assert (forall y, y ∈ l -> is_Some (key y)) as Hl'
      by (intros y Hy; apply Hl; by right).
    destruct (Nat.ltb_spec kx kbest) as [Hlt|Hge].
    + specialize (IH (pre ++ best :: mid) [] x kx).
      rewrite <- app_assoc in IH. simpl in IH. apply IH; try done.
      * intros y [Hy|Hy]%elem_of_app.
        -- destruct (Hpre y Hy) as (ky & ? & ?). exists ky. split; [done|lia].
        -- apply elem_of_cons in Hy as [->|Hy].
           ++ exists kbest. split; [done|lia].
           ++ destruct (Hmid y Hy) as (ky & ? & ?). exists ky.
              split; [done|lia].
      * by intros y ?%elem_of_nil.
    + specialize (IH pre (mid ++ [x]) best kbest).
      rewrite <- app_assoc in IH. simpl in IH. apply IH; try done.
      intros y [Hy|Hy]%elem_of_app; [by apply Hmid|].
      apply list_elem_of_singleton in Hy as ->. by exists kx.
Qed.

(** [min(x :: l, key=key)] is the first minimal element when no key
    raises. *)
Lemma py_min_spec {A} (key : A -> option nat) (x : A) (l : list A) :
  (forall y, y ∈ x :: l -> is_Some (key y)) ->
  exists b, py_min key x l = Some b /\ first_min key (x :: l) b.
Proof.
  intros Hl. unfold py_min. destruct (Hl x) as [kx Hkx]; [by left|].
  rewrite Hkx.
  apply (min_scan_spec key l [] [] x kx); try done.
  - by intros y ?%elem_of_nil.
  - by intros y ?%elem_of_nil.
  - intros y Hy. apply Hl. by right.
Qed.

(** A key that raises on some element makes [min] raise. *)
Lemma min_scan_raises {A} (key : A -> option nat) (l : list A)
  (best : A) (kbest : nat) :
  (exists y, y ∈ l /\ key y = None) -> min_scan key best kbest l = None.
Proof.
  revert best kbest. induction l as [|x l IH]; intros best kbest (y & Hy & Hn).
  - by apply elem_of_nil in Hy.
  - simpl. destruct (key x) as [kx|] eqn:Hkx; [|done].
    apply elem_of_cons in Hy as [->|Hy]; [congruence|].
    destruct (kx <? kbest)%nat; apply IH; eauto.
Qed.

(** The position of the first minimal element depends on the keys
    only. *)
Lemma first_min_same_position {A} (key : A -> option nat)
  (l l' : list A) (b b' : A) :
  first_min key l b -> first_min key l' b' ->
  map key l = map key l' ->
  exists i, l !! i = Some b /\ l' !! i = Some b'.
Proof.
  intros (kb & l1 & l2 & -> & Hkb & Hpre & Hpost)
         (kb' & l1' & l2' & -> & Hkb' & Hpre' & Hpost') Hmap.
  assert (forall (m1 m2 : list A) (c c' : A) (kc kc' : nat) (n1 n2 : list A),
    key c = Some kc -> key c' = Some kc' ->
    (forall y, y ∈ n1 -> exists ky, key y = Some ky /\ (kc' < ky)%nat) ->
    (forall y, y ∈ m2 -> exists ky, key y = Some ky /\ (kc <= ky)%nat) ->
    map key (m1 ++ c :: m2) = map key (n1 ++ c' :: n2) ->
    ~ (length m1 < length n1)%nat) as Hno.
  { intros m1 m2 c c' kc kc' n1 n2 Hc Hc' Hn1 Hm2 Heq Hlt.
    assert (map key (m1 ++ c :: m2) !! length m1 = Some (Some kc)) as H1.
    { rewrite list_lookup_fmap, list_lookup_middle; [|done]. simpl.
      by rewrite Hc. }
    rewrite Heq, list_lookup_fmap, lookup_app_l in H1; [|done].
    destruct (n1 !! length m1) as [y|] eqn:Hy; [|done].
    simpl in H1. injection H1 as H1.
    destruct (Hn1 y) as (ky & Hky & Hlty);
      [by eapply list_elem_of_lookup_2|].
    assert (ky = kc) as -> by congruence.
    assert (map key (n1 ++ c' :: n2) !! length n1 = Some (Some kc')) as H2.
    { rewrite list_lookup_fmap, list_lookup_middle; [|done]. simpl.
      by rewrite Hc'. }
    rewrite <- Heq, list_lookup_fmap, lookup_app_r in H2; [|lia].
    destruct (length n1 - length m1)%nat as [|k] eqn:Hk; [lia|].
    simpl in H2. destruct (m2 !! k) as [z|] eqn:Hz; [|done].
    simpl in H2. injection H2 as H2.
    destruct (Hm2 z) as (kz & Hkz & Hlez);
      [by eapply list_elem_of_lookup_2|].
    assert (kz = kc') as -> by congruence. lia. }
  assert (length l1 = length l1') as Hlen.
  { destruct (Nat.lt_trichotomy (length l1) (length l1')) as [Hlt|[?|Hgt]];
      [exfalso|done|exfalso].
    - by apply (Hno l1 l2 b b' kb kb' l1' l2').
    - by apply (Hno l1' l2' b' b kb' kb l1 l2). }
  exists (length l1). split.
  - by apply list_lookup_middle.
  - apply list_lookup_middle. done.
Qed.

Lemma first_position_list_index (types : list string) (x : string)
  (n : nat) :
  list_index x types = Some n <-> first_position types x n.
Proof. apply list_index_spec. Qed.

Lemma first_min_least_position {BrowserOptions} (types : list string)
  (bs : list (PossibleBrowser.t BrowserOptions))
  (b : PossibleBrowser.t BrowserOptions) :
  first_min (type_index types) bs b -> first_of_least_position types bs b.
Proof.
  intros (kb & l1 & l2 & Hbs & Hkb & Hpre & Hpost).
  exists kb, l1, l2. split; [done|].
  split; [by apply first_position_list_index|]. split.
  - intros y Hy. destruct (Hpre y Hy) as (ky & Hky & Hlt).
    exists ky. split; [by apply first_position_list_index|done].
  - intros y Hy. destruct (Hpost y Hy) as (ky & Hky & Hle).
    exists ky. split; [by apply first_position_list_index|done].
Qed.

(** ** Runs *)

Lemma updates_app {BrowserOptions Device}
  (t1 t2 : list (Event BrowserOptions Device)) :
  updates (t1 ++ t2) = updates t1 ++ updates t2.
Proof. unfold updates. apply flat_map_app. Qed.

(** A loop whose body always returns, keeps an invariant of the
    accumulator and emits only events in [Q], does so as a whole. *)
Lemma for_each_returns {E A S} (P : S -> Prop) (Q : E -> Prop)
  (body : S -> A -> Run E S) (l : list A) (s : S) :
  P s ->
  (forall s x, P s -> x ∈ l ->
     exists tr s', body s x = (tr, inr s') /\ P s' /\ Forall Q tr) ->
  exists tr s', for_each l body s = (tr, inr s') /\ P s' /\ Forall Q tr.
Proof.
  revert s. induction l as [|x l IH]; intros s Hs Hbody; simpl.
  - exists [], s. repeat split; [done|constructor].
  - destruct (Hbody s x Hs) as (tr & s' & Hb & Hs' & Htr); [by left|].
    destruct (IH s' Hs') as (tr' & s'' & Hf & Hs'' & Htr').
    { intros s0 y Hs0 Hy. apply Hbody; [done|by right]. }
    exists (tr ++ tr'), s''. unfold bind. rewrite Hb, Hf.
    repeat split; [done|]. by apply Forall_app.
Qed.

(** The same loop, counting the events that pass a test [p]: the count
    is bounded by the sum of the bounds of the iterations. *)
Lemma for_each_count {E A S} (p : E -> bool) (c : A -> nat)
  (body : S -> A -> Run E S) (l : list A) (s : S) :
  (forall s x, exists tr s', body s x = (tr, inr s') /\
     (length (List.filter p tr) <= c x)%nat) ->
  exists tr s', for_each l body s = (tr, inr s') /\
    (length (List.filter p tr) <= list_sum (map c l))%nat.
Proof.
  intros Hbody. revert s. induction l as [|x l IH]; intros s; simpl.
  - exists [], s. split; [done|]. simpl. lia.
  - destruct (Hbody s x) as (tr & s' & Hb & Hc).
    destruct (IH s') as (tr' & s'' & Hf & Hc').
    exists (tr ++ tr'), s''. unfold bind. rewrite Hb, Hf.
    split; [done|]. rewrite List.filter_app, length_app. lia.
Qed.

Lemma opt_is_spec (o : option string) (s : string) :
  opt_is o s = true <-> o = Some s.
Proof.
  destruct o as [t|]; simpl; [|done]. rewrite String.eqb_eq.
  split; congruence.
Qed.

Lemma opt_is_false (o : option string) (s : string) :
  opt_is o s = false <-> o <> Some s.
Proof.
  rewrite <- opt_is_spec. destruct (opt_is o s); split; congruence.
Qed.

Lemma is_set_spec (o : option string) : is_set o = true <-> o <> None.
Proof. destruct o; simpl; split; congruence. Qed.

Lemma is_set_false (o : option string) : is_set o = false <-> o = None.
Proof. destruct o; simpl; split; congruence. Qed.

Lemma prefix_spec (p s : string) :
  String.prefix p s = true <-> exists r, s = String.append p r.
Proof.
  revert s. induction p as [|a p IH]; intros s; simpl.
  - split; [by exists s|]. intros _. by destruct s.
  - destruct s as [|b s]; simpl.
    { split; [discriminate|]. intros [r Hr]. discriminate. }
    destruct (Ascii.ascii_dec a b) as [->|Hne].
    + rewrite IH. split; intros [r Hr]; exists r.
      * change (String b s = String b (String.append p r)). congruence.
      * change (String b s = String b (String.append p r)) in Hr. congruence.
    + split; [discriminate|]. intros [r Hr].
      change (String b s = String a (String.append p r)) in Hr. congruence.
Qed.

(** Tests of the code turned into the propositions they decide. *)
Ltac bool_hyps :=
  repeat match goal with
  | H : opt_is _ _ = true |- _ => apply opt_is_spec in H
  | H : opt_is _ _ = false |- _ => apply opt_is_false in H
  | H : is_set _ = true |- _ => apply is_set_spec in H
  | H : is_set _ = false |- _ => apply is_set_false in H
  end.

Lemma is_desktop_os_spec {BrowserOptions}
  (b : PossibleBrowser.t BrowserOptions) :
  is_desktop_os b = true <-> desktop_os b.
Proof.
  unfold is_desktop_os, desktop_os, startswith.
  rewrite !orb_true_iff, String.eqb_eq, !prefix_spec. tauto.
Qed.

(** The checks raise exactly under the four conditions, and before any
    call is made. *)
Lemma check_options_cases {BrowserOptions Device}
  (options : BrowserFinderOptions.t BrowserOptions) :
  (rejected options /\
   exists msg, check_options (Device := Device) options
               = ([], inl (BrowserFinderException msg))) \/
  (~ rejected options /\
   check_options (Device := Device) options = ([], inr tt)).
Proof.
  unfold rejected, check_options, raise, ret.
  destruct (opt_is _ "exact") eqn:E1;
    destruct (is_set (BrowserFinderOptions.browser_executable options))
      eqn:E2;
    destruct (opt_is _ "cros-chrome") eqn:E3;
    destruct (is_set (BrowserFinderOptions.cros_remote options)) eqn:E4;
    destruct (opt_is _ "cros-chrome-guest") eqn:E5;
    simpl; bool_hyps;
    first [ exfalso; congruence
          | left; split; [intuition congruence | by eexists]
          | right; split; [intuition congruence | reflexivity] ].
Qed.

Section Facts.
Context {BrowserOptions Device : Type}.

Abbreviation Options := (BrowserFinderOptions.t BrowserOptions).
Abbreviation Browser := (PossibleBrowser.t BrowserOptions).
Abbreviation Ev := (Event BrowserOptions Device).

Variable backend : BrowserFinderModule -> Backend.t BrowserOptions Device.
Variable GetDevicesMatchingOptions : Options -> list (option Device).

Lemma updates_not_update (tr : list Ev) :
  Forall not_update tr -> updates tr = [].
Proof.
  induction 1 as [|ev tr Hev _ IH]; [done|].
  simpl. rewrite IH. by destruct ev.
Qed.

(** ** The aggregation loop *)

Lemma aggregate_step_returns (options : Options) (device : option Device)
  (acc : list Browser * list Browser) (finder : BrowserFinderModule) :
  exists tr acc',
    aggregate_step backend options device acc finder = (tr, inr acc') /\
    Forall not_update tr /\
    (forall f, (length (List.filter (is_discovery_by f) tr)
                <= if finder_eqb finder f then 1 else 0)%nat) /\
    (aggregate_inv backend acc -> aggregate_inv backend acc').
Proof.
  destruct acc as [bs ds].
  unfold aggregate_step, call_FindAllBrowserTypes,
    call_FindAllAvailableBrowsers, call_SelectDefaultBrowser.
  set (curr := Backend.FindAllAvailableBrowsers (backend finder) options device).
  assert (forall ds',
    ds' = match Backend.SelectDefaultBrowser (backend finder) curr with
          | Some d => ds ++ [d]
          | None => ds
          end ->
    aggregate_inv backend (bs, ds) ->
    aggregate_inv backend (bs ++ curr, ds')) as Hinv.
  { intros ds' -> Hacc Hc Hds. simpl in *.
    destruct curr as [|c curr'] eqn:Hcurr.
    - rewrite (Hc finder) in Hds. rewrite app_nil_r. by apply Hacc.
    - intros Habs. by apply app_eq_nil in Habs as [_ ?]. }
  destruct (truthy _ && negb _); simpl;
    [destruct (str_in _ _); simpl|];
    eexists _, _; (split; [reflexivity|]);
    (split; [repeat constructor|]);
    (split; [intros f; simpl; destruct (finder_eqb finder f); simpl; lia|]);
    try done; by apply Hinv.
Qed.

Lemma Aggregate_returns (options : Options) :
  exists tr bs ds,
    Aggregate backend GetDevicesMatchingOptions options
      = (GetDevicesMatchingOptions_call :: tr, inr (bs, ds)) /\
    Forall not_update tr /\
    (no_default_without_candidate backend -> ds <> [] -> bs <> []) /\
    (forall f, (discovery_calls f tr
                <= length (GetDevicesMatchingOptions options))%nat).
Proof.
  unfold Aggregate, call_GetDevicesMatchingOptions.
  set (devices := GetDevicesMatchingOptions options).
  set (body := fun acc device =>
         for_each BROWSER_FINDERS
           (aggregate_step backend options device) acc).
  destruct (for_each_returns (aggregate_inv backend) not_update body devices ([], []))
    as (tr & [bs ds] & Hrun & Hinv & Hq).
  { by intros _ ?. }
  { intros s d Hs _. apply for_each_returns; [done|].
    intros s' f Hs' _.
    destruct (aggregate_step_returns options d s' f)
      as (t & a & ? & ? & _ & ?). exists t, a. auto. }
  exists tr, bs, ds. simpl. rewrite Hrun. simpl.
  repeat split; try done.
  intros f.
  destruct (for_each_count (is_discovery_by f) (fun _ => 1%nat) body
              devices ([], [])) as (tr' & s' & Hrun' & Hc).
  { intros s d.
    destruct (for_each_count (is_discovery_by f)
                (fun g => if finder_eqb g f then 1%nat else 0%nat)
                (aggregate_step backend options d) BROWSER_FINDERS s)
      as (t & a & Ht & Hle).
    - intros s0 g.
      destruct (aggregate_step_returns options d s0 g)
        as (t & a & ? & _ & ? & _). exists t, a. auto.
    - exists t, a. split; [done|].
      etransitivity; [exact Hle|]. by destruct f. }
  rewrite Hrun in Hrun'. injection Hrun' as <- _.
  unfold discovery_calls. etransitivity; [exact Hc|].
  clear. induction devices; simpl; lia.
Qed.

(** [FindAllBrowserTypes] asks every backend once, in the order of
    [BROWSER_FINDERS], and concatenates the answers. *)
Lemma FindAllBrowserTypes_eq (options : Options) :
  FindAllBrowserTypes backend options
  = ([FindAllBrowserTypes_call desktop_browser_finder;
      FindAllBrowserTypes_call android_browser_finder;
      FindAllBrowserTypes_call cros_browser_finder],
     inr (Backend.FindAllBrowserTypes (backend desktop_browser_finder) options
          ++ Backend.FindAllBrowserTypes (backend android_browser_finder) options
          ++ Backend.FindAllBrowserTypes (backend cros_browser_finder) options)).
Proof.
  unfold FindAllBrowserTypes, call_FindAllBrowserTypes. simpl.
  by rewrite <- app_assoc.
Qed.

(** ** The selection *)

Lemma Resolve_nil (options : Options) (ds : list Browser) :
  Resolve backend options [] ds = ([], inr None).
Proof. reflexivity. Qed.

(** No type requested, some default: the first most recent default. *)
Lemma Resolve_default (options : Options) (bs ds : list Browser) :
  BrowserFinderOptions.browser_type options = None ->
  bs <> [] -> ds <> [] ->
  exists b, first_max key_time ds b /\
    Resolve backend options bs ds
    = ([UpdateExecutableIfNeeded_call b], inr (Some b)).
Proof.
  intros Hbt Hbs Hds. unfold Resolve. rewrite Hbt.
  destruct bs as [|b0 bs']; [done|].
  destruct (py_max_spec key_time ds Hds) as (b & Hmax & Hfirst).
  exists b. split; [done|].
  destruct ds as [|d ds']; [done|]. by rewrite Hmax.
Qed.

(** No type requested, no default, one candidate. *)
Lemma Resolve_single (options : Options) (b : Browser) :
  BrowserFinderOptions.browser_type options = None ->
  Resolve backend options [b] []
  = ([UpdateExecutableIfNeeded_call b], inr (Some b)).
Proof. intros Hbt. unfold Resolve. by rewrite Hbt. Qed.

(** No type requested, no default, several candidates. *)
Lemma Resolve_type_required (options : Options) (bs : list Browser) :
  BrowserFinderOptions.browser_type options = None ->
  (2 <= length bs)%nat ->
  Resolve backend options bs []
  = ([], inl (BrowserTypeRequiredException
                (type_required_message
                   (sorted_set (map PossibleBrowser.browser_type bs))))).
Proof.
  intros Hbt Hlen. unfold Resolve. rewrite Hbt.
  destruct bs as [|b0 [|b1 bs']]; simpl in Hlen; try lia. reflexivity.
Qed.

(** ["any"]: the first candidate whose type comes first in the list of
    all types, provided every candidate's type is in that list. *)
Lemma Resolve_any (options : Options) (bs ds : list Browser) :
  let types :=
    Backend.FindAllBrowserTypes (backend desktop_browser_finder) options
    ++ Backend.FindAllBrowserTypes (backend android_browser_finder) options
    ++ Backend.FindAllBrowserTypes (backend cros_browser_finder) options in
  BrowserFinderOptions.browser_type options = Some "any" ->
  bs <> [] ->
  (forall b, b ∈ bs -> PossibleBrowser.browser_type b ∈ types) ->
  exists b, first_min (type_index types) bs b /\
    Resolve backend options bs ds
    = (FindAllBrowserTypes_calls ++ [UpdateExecutableIfNeeded_call b],
       inr (Some b)).
Proof.
  intros types Hbt Hbs Hin. unfold Resolve. rewrite Hbt.
  destruct bs as [|b0 bs']; [done|].
  destruct (py_min_spec (type_index types) b0 bs') as (b & Hmin & Hfirst).
  { intros y Hy. apply list_index_is_Some. by apply Hin. }
  exists b. split; [done|].
  change (String.eqb "any" "any") with true. cbv iota.
  rewrite FindAllBrowserTypes_eq. fold types. unfold bind.
  unfold type_index in Hmin. by rewrite Hmin.
Qed.

(** ["any"] with a candidate whose type is in no backend's list: the
    lookup of its index raises. *)
Lemma Resolve_any_unknown_type (options : Options) (bs ds : list Browser) :
  let types :=
    Backend.FindAllBrowserTypes (backend desktop_browser_finder) options
    ++ Backend.FindAllBrowserTypes (backend android_browser_finder) options
    ++ Backend.FindAllBrowserTypes (backend cros_browser_finder) options in
  BrowserFinderOptions.browser_type options = Some "any" ->
  (exists b, b ∈ bs /\ type_index types b = None) ->
  Resolve backend options bs ds = (FindAllBrowserTypes_calls, inl ValueError).
Proof.
  intros types Hbt (b & Hb & Hnone). unfold Resolve. rewrite Hbt.
  destruct bs as [|b0 bs']; [by apply elem_of_nil in Hb|].
  change (String.eqb "any" "any") with true. cbv iota.
  rewrite FindAllBrowserTypes_eq. fold types. unfold bind.
  assert (py_min (type_index types) b0 bs' = None) as Hmin.
  { unfold py_min. destruct (type_index types b0) as [k0|] eqn:Hk0; [|done].
    apply min_scan_raises. apply elem_of_cons in Hb as [->|Hb]; [congruence|].
    eauto. }
  unfold type_index in Hmin. by rewrite Hmin.
Qed.

Lemma filter_matches (options : Options) (t : string) (bs : list Browser) :
  let matching :=
    List.filter (fun b =>
       String.eqb (PossibleBrowser.browser_type b) t &&
       PossibleBrowser.SupportsOptions b
         (BrowserFinderOptions.browser_options options)) bs in
  sublist matching bs /\
  forall b, b ∈ matching <-> b ∈ bs /\ matches options t b.
Proof.
  simpl. split.
  - induction bs as [|b bs IH]; simpl; [constructor|].
    destruct (_ && _); by constructor.
  - intros b. rewrite !list_elem_of_In, filter_In. unfold matches.
    by rewrite andb_true_iff, String.eqb_eq.
Qed.

(** An explicit type: the first most recent matching candidate, or
    [None] when nothing matches. *)
Lemma Resolve_explicit (options : Options) (t : string)
  (bs ds : list Browser) :
  BrowserFinderOptions.browser_type options = Some t -> t <> "any" ->
  exists matching,
    sublist matching bs /\
    (forall b, b ∈ matching <-> b ∈ bs /\ matches options t b) /\
    (matching = [] -> Resolve backend options bs ds = ([], inr None)) /\
    (matching <> [] ->
     exists b, first_max key_time matching b /\
       Resolve backend options bs ds
       = ([UpdateExecutableIfNeeded_call b], inr (Some b))).
Proof.
  intros Hbt Hany.
  destruct (filter_matches options t bs) as [Hsub Hmem].
  eexists. split; [exact Hsub|]. split; [exact Hmem|].
  unfold Resolve. rewrite Hbt.
  apply String.eqb_neq in Hany. rewrite Hany.
  destruct bs as [|b0 bs']; [by split|].
  set (matching := List.filter _ (b0 :: bs')). split.
  - by intros ->.
  - intros Hne. destruct (py_max_spec key_time matching Hne)
      as (b & Hmax & Hfirst).
    exists b. split; [done|].
    destruct matching; [done|]. by rewrite Hmax.
Qed.

(** The selection never raises [BrowserFinderException], and its trace
    holds the hook of the candidate it returns as its last event and no
    other hook. *)
Lemma Resolve_discipline (options : Options) (bs ds : list Browser) :
  match Resolve backend options bs ds with
  | (tr, inr (Some b)) =>
      exists tr', tr = tr' ++ [UpdateExecutableIfNeeded_call b] /\
                  updates tr' = []
  | (tr, inr None) => updates tr = []
  | (tr, inl e) => updates tr = [] /\
                   forall msg, e <> BrowserFinderException msg
  end.
Proof.
  unfold Resolve. destruct bs as [|b0 bs']; [done|].
  destruct (BrowserFinderOptions.browser_type options) as [t|].
  - destruct (String.eqb t "any").
    + rewrite FindAllBrowserTypes_eq. unfold bind.
      destruct (py_min _ b0 bs') as [c|]; simpl; [|done].
      by exists FindAllBrowserTypes_calls.
    + destruct (List.filter _ (b0 :: bs')) as [|m ms] eqn:Hm; [done|].
      simpl. by exists [].
  - destruct ds as [|d ds'].
    + destruct (length (b0 :: bs') =? 1)%nat; simpl; [by exists []|done].
    + simpl. by exists [].
Qed.

(** ** [FindBrowser] *)

Lemma FindBrowser_fake (options : Options) :
  is_fake options ->
  FindBrowser backend GetDevicesMatchingOptions options
  = ([], inr (BrowserFinderOptions.fake_possible_browser options)).
Proof. unfold is_fake, FindBrowser. by intros ->. Qed.

Lemma not_fake_eqb (options : Options) :
  ~ is_fake options ->
  String.eqb (BrowserFinderOptions.class_name options)
    "_FakeBrowserFinderOptions" = false.
Proof. intros H. by apply String.eqb_neq. Qed.

Lemma FindBrowser_rejected (options : Options) :
  ~ is_fake options -> rejected options ->
  exists msg, FindBrowser backend GetDevicesMatchingOptions options
              = ([], inl (BrowserFinderException msg)).
Proof.
  intros Hfake Hrej. unfold FindBrowser. rewrite (not_fake_eqb _ Hfake).
  destruct (check_options_cases (Device := Device) options) as [[_ [msg Hc]]|[Hn _]]; [|done].
  exists msg. by rewrite Hc.
Qed.

Lemma FindBrowser_accepted (options : Options) (tr : list Ev)
  (bs ds : list Browser) :
  ~ is_fake options -> ~ rejected options ->
  Aggregate backend GetDevicesMatchingOptions options = (tr, inr (bs, ds)) ->
  FindBrowser backend GetDevicesMatchingOptions options
  = (tr ++ (Resolve backend options bs ds).1,
     (Resolve backend options bs ds).2).
Proof.
  intros Hfake Hrej Hagg. unfold FindBrowser. rewrite (not_fake_eqb _ Hfake).
  destruct (check_options_cases (Device := Device) options) as [[? _]|[_ Hc]]; [done|].
  rewrite Hc. unfold bind. rewrite Hagg. simpl.
  by destruct (Resolve backend options bs ds).
Qed.

(** The selection makes no discovery call. *)
Lemma Resolve_no_discovery (options : Options) (bs ds : list Browser)
  (f : BrowserFinderModule) :
  discovery_calls f (Resolve backend options bs ds).1 = O.
Proof.
  unfold Resolve. destruct bs as [|b0 bs']; [done|].
  destruct (BrowserFinderOptions.browser_type options) as [t|].
  - destruct (String.eqb t "any").
    + rewrite FindAllBrowserTypes_eq. unfold bind.
      by destruct (py_min _ b0 bs') as [c|].
    + by destruct (List.filter _ (b0 :: bs')) as [|m ms].
  - destruct ds as [|d ds']; [|done].
    by destruct (length (b0 :: bs') =? 1)%nat.
Qed.

(** One run of [FindBrowser] asks each backend for its candidates at
    most once per matching device. *)
Lemma FindBrowser_discovery_bound (options : Options)
  (f : BrowserFinderModule) :
  (discovery_calls f
     (FindBrowser backend GetDevicesMatchingOptions options).1
   <= length (GetDevicesMatchingOptions options))%nat.
Proof.
  destruct (decide (BrowserFinderOptions.class_name options
                    = "_FakeBrowserFinderOptions")) as [Hfake|Hfake].
  { rewrite (FindBrowser_fake _ Hfake). simpl. unfold discovery_calls.
    simpl. lia. }
  destruct (check_options_cases (Device := Device) options)
    as [[Hrej _]|[Hacc _]].
  { destruct (FindBrowser_rejected options Hfake Hrej) as [msg ->].
    unfold discovery_calls. simpl. lia. }
  destruct (Aggregate_returns options) as (t & bs & ds & Hagg & _ & _ & Hc).
  rewrite (FindBrowser_accepted _ _ _ _ Hfake Hacc Hagg).
  cbn [fst]. specialize (Hc f).
  pose proof (Resolve_no_discovery options bs ds f) as Hr.
  unfold discovery_calls in *.
  rewrite List.filter_app, length_app, Hr. simpl. lia.
Qed.

(** ** [GetAllAvailableBrowserTypes] *)

Lemma GetAllAvailableBrowsers_eq (options : Options)
  (device : option Device) :
  exists tr,
    GetAllAvailableBrowsers backend options device
    = (tr, inr match device with
               | None => []
               | Some _ =>
                 flat_map (fun finder =>
                   Backend.FindAllAvailableBrowsers (backend finder)
                     options device) BROWSER_FINDERS
               end).
Proof.
  destruct device as [d|]; [|by eexists].
  eexists. unfold GetAllAvailableBrowsers, call_FindAllAvailableBrowsers.
  simpl. by rewrite app_nil_r, <- app_assoc.
Qed.

Lemma possible_browsers_loop (options : Options)
  (devices : list (option Device)) (acc : list Browser) :
  exists tr,
    for_each devices
      (fun possible_browsers device =>
         do bs <- GetAllAvailableBrowsers backend options device;
         ret (possible_browsers ++ bs)) acc
    = (tr, inr (acc ++
         flat_map (fun device =>
           match device with
           | None => []
           | Some _ =>
             flat_map (fun finder =>
               Backend.FindAllAvailableBrowsers (backend finder)
                 options device) BROWSER_FINDERS
           end) devices)).
Proof.
  revert acc. induction devices as [|d devices IH]; intros acc.
  - exists []. simpl. by rewrite app_nil_r.
  - destruct (GetAllAvailableBrowsers_eq options d) as [t Ht].
    destruct (IH (acc ++ match d with
                         | None => []
                         | Some _ =>
                           flat_map (fun finder =>
                             Backend.FindAllAvailableBrowsers
                               (backend finder) options d) BROWSER_FINDERS
                         end)) as [t' Ht'].
    eexists. cbn [for_each]. unfold bind at 1. unfold bind at 1.
    rewrite Ht. cbn [ret]. rewrite app_nil_r.
    rewrite Ht'. by rewrite <- app_assoc.
Qed.

Lemma possible_browsers_discovered (options : Options) (b : Browser) :
  b ∈ flat_map (fun device =>
        match device with
        | None => []
        | Some _ =>
          flat_map (fun finder =>
            Backend.FindAllAvailableBrowsers (backend finder)
              options device) BROWSER_FINDERS
        end) (GetDevicesMatchingOptions options)
  <-> discovered backend GetDevicesMatchingOptions options b.
Proof.
  unfold discovered. rewrite list_elem_of_In, in_flat_map. split.
  - intros ([d|] & Hd & Hb); [|done].
    apply in_flat_map in Hb as (f & _ & Hb).
    exists d, f. by rewrite !list_elem_of_In.
  - intros (d & f & Hd & Hb). exists (Some d).
    rewrite !list_elem_of_In in *. split; [done|].
    apply in_flat_map. exists f. split; [|done].
    destruct f; simpl; tauto.
Qed.

Lemma add_reference_spec (bs : list Browser) (X : gset string) (t : string) :
  t ∈ add_reference bs X <->
  t ∈ X \/ (t = "reference" /\ exists b, b ∈ bs /\ desktop_os b).
Proof.
  induction bs as [|b bs IH]; simpl.
  - split; [auto|]. intros [?|(_ & b & Hb & _)]; [done|].
    by apply elem_of_nil in Hb.
  - destruct (is_desktop_os b) eqn:Hb.
    + apply is_desktop_os_spec in Hb.
      rewrite elem_of_union, elem_of_singleton. split.
      * intros [->|?]; [right|by left]. split; [done|].
        exists b. split; [by left|done].
      * intros [?|[-> _]]; auto.
    + rewrite IH. split; (intros [?|(-> & c & Hc & Hos)]; [by left|right]).
      * split; [done|]. exists c. split; [by right|done].
      * split; [done|]. exists c. split; [|done].
        apply elem_of_cons in Hc as [->|Hc]; [|done].
        apply is_desktop_os_spec in Hos. congruence.
Qed.

End Facts.

(** ** The cache *)

(** A cached call only adds to the store. *)
Lemma Cache_store_grows {E Opt R} (cache_key : Opt -> string)
  (f : Opt -> Run E R) (store : gmap string R) (options : Opt) :
  store ⊆ (Cache cache_key f store options).1.
Proof.
  unfold Cache. destruct (store !! cache_key options) eqn:Hl; [done|].
  destruct (f options) as [tr [e|r]]; simpl; [done|].
  by apply insert_subseteq.
Qed.

(** After a call that returned, the store holds the result under the
    key of the arguments. *)
Lemma Cache_stores_result {E Opt R} (cache_key : Opt -> string)
  (f : Opt -> Run E R) (store store1 : gmap string R) (options : Opt)
  (tr : list E) (r : R) :
  Cache cache_key f store options = (store1, (tr, inr r)) ->
  store1 !! cache_key options = Some r /\
  (tr = [] \/ (tr, inr r) = f options).
Proof.
  unfold Cache. destruct (store !! cache_key options) as [r0|] eqn:Hl.
  - intros [= <- <- <-]. auto.
  - destruct (f options) as [t [e|r0]]; intros [= <- <- ?]; subst.
    split; [apply lookup_insert_eq|by right].
Qed.

(** A call whose key is in the store returns the stored result and
    calls nothing. *)
Lemma Cache_hit {E Opt R} (cache_key : Opt -> string)
  (f : Opt -> Run E R) (store : gmap string R) (options : Opt) (r : R) :
  store !! cache_key options = Some r ->
  Cache cache_key f store options = (store, ([], inr r)).
Proof. unfold Cache. by intros ->. Qed.

(** * The resolution contract *)

Section Resolution.
Context {BrowserOptions Device : Type}.

Abbreviation Options := (BrowserFinderOptions.t BrowserOptions).
Abbreviation Browser := (PossibleBrowser.t BrowserOptions).
Abbreviation Ev := (Event BrowserOptions Device).

Variable backend : BrowserFinderModule -> Backend.t BrowserOptions Device.
Variable GetDevicesMatchingOptions : Options -> list (option Device).

Abbreviation FindBrowser' :=
  (FindBrowser backend GetDevicesMatchingOptions).
Abbreviation Aggregate' :=
  (Aggregate backend GetDevicesMatchingOptions).

(** C1, as amended.  For every configuration that is not the test double
    [_FakeBrowserFinderOptions]: under any of the four conditions
    [FindBrowser] raises [BrowserFinderException] with an empty trace,
    that is before the devices are enumerated or a backend is asked;
    under none of them it does not raise [BrowserFinderException]. *)
Theorem FindBrowser_configuration_error (options : Options) :
  ~ is_fake options ->
  (rejected options ->
   exists msg, FindBrowser' options = ([], inl (BrowserFinderException msg)))
  /\
  (~ rejected options ->
   ~ raises_BrowserFinderException (FindBrowser' options)).
Proof.
  intros Hfake. split.
  - by apply FindBrowser_rejected.
  - intros Hacc [msg Hraise].
    destruct (Aggregate_returns backend GetDevicesMatchingOptions options)
      as (tr & bs & ds & Hagg & _).
    rewrite (FindBrowser_accepted _ _ _ _ _ _ Hfake Hacc Hagg) in Hraise.
    simpl in Hraise.
    pose proof (Resolve_discipline backend options bs ds) as Hd.
    destruct (Resolve backend options bs ds) as [t [e|[b|]]]; simpl in *;
      try discriminate.
    destruct Hd as [_ Hd]. injection Hraise as ->. by apply (Hd msg).
Qed.

(** C2, as amended.  With [browser_type] unset, a non-empty list of
    aggregated candidates and a non-empty list of aggregated defaults,
    [FindBrowser] runs the hook of, and returns, the first default whose
    [last_modification_time] is maximal: every earlier default is
    strictly older, every later one is not more recent. *)
Theorem FindBrowser_most_recent_default (options : Options)
  (tr : list Ev) (bs ds : list Browser) :
  ~ is_fake options -> ~ rejected options ->
  BrowserFinderOptions.browser_type options = None ->
  Aggregate' options = (tr, inr (bs, ds)) ->
  bs <> [] -> ds <> [] ->
  exists b, first_max PossibleBrowser.last_modification_time ds b /\
    FindBrowser' options
    = (tr ++ [UpdateExecutableIfNeeded_call b], inr (Some b)).
Proof.
  intros Hfake Hacc Hbt Hagg Hbs Hds.
  destruct (Resolve_default backend options bs ds Hbt Hbs Hds)
    as (b & Hmax & Hres).
  exists b. split; [exact Hmax|].
  rewrite (FindBrowser_accepted _ _ _ _ _ _ Hfake Hacc Hagg).
  by rewrite Hres.
Qed.

(** C3.  With [browser_type] unset and no aggregated default: a single
    aggregated candidate is returned after its hook ran; two or more
    candidates make [FindBrowser] raise [BrowserTypeRequiredException],
    the message listing, one per line, the type names of the candidates
    in ascending order and without duplicate. *)
Theorem FindBrowser_type_omitted_no_default (options : Options)
  (tr : list Ev) (bs : list Browser) :
  ~ is_fake options -> ~ rejected options ->
  BrowserFinderOptions.browser_type options = None ->
  Aggregate' options = (tr, inr (bs, [])) ->
  match bs with
  | [] => FindBrowser' options = (tr, inr None)
  | [b] => FindBrowser' options
           = (tr ++ [UpdateExecutableIfNeeded_call b], inr (Some b))
  | _ =>
    exists names,
      FindBrowser' options
      = (tr, inl (BrowserTypeRequiredException
                    (type_required_message names))) /\
      StronglySorted str_le names /\ NoDup names /\
      forall t, t ∈ names <->
                exists b, b ∈ bs /\ PossibleBrowser.browser_type b = t
  end.
Proof.
  intros Hfake Hacc Hbt Hagg.
  rewrite (FindBrowser_accepted _ _ _ _ _ _ Hfake Hacc Hagg).
  destruct bs as [|b0 [|b1 bs']].
  - by rewrite Resolve_nil, app_nil_r.
  - by rewrite Resolve_single.
  - rewrite Resolve_type_required; [|done|simpl; lia]. simpl.
    rewrite app_nil_r. eexists. split; [reflexivity|].
    destruct (sorted_set_spec
                (map PossibleBrowser.browser_type (b0 :: b1 :: bs')))
      as (Hs & Hn & Hm).
    repeat split; try done.
    + intros Ht. apply Hm, list_elem_of_fmap in Ht as (b & -> & Hb). eauto.
    + intros (b & Hb & <-). apply Hm. apply list_elem_of_fmap. eauto.
Qed.

(** C4.  With an explicit [browser_type] other than "any", the candidates
    considered are exactly the aggregated ones of that type whose
    [SupportsOptions(options.browser_options)] is true, in their order;
    with none [FindBrowser] returns [None] and raises nothing, otherwise
    it returns the first of them whose [last_modification_time] is
    maximal. *)
Theorem FindBrowser_explicit_type (options : Options) (t : string)
  (tr : list Ev) (bs ds : list Browser) :
  ~ is_fake options -> ~ rejected options ->
  BrowserFinderOptions.browser_type options = Some t -> t <> "any" ->
  Aggregate' options = (tr, inr (bs, ds)) ->
  exists matching,
    sublist matching bs /\
    (forall b, b ∈ matching <-> b ∈ bs /\ matches options t b) /\
    match matching with
    | [] => FindBrowser' options = (tr, inr None)
    | _ :: _ =>
      exists b, first_max PossibleBrowser.last_modification_time matching b /\
        FindBrowser' options
        = (tr ++ [UpdateExecutableIfNeeded_call b], inr (Some b))
    end.
Proof.
  intros Hfake Hacc Hbt Hany Hagg.
  destruct (Resolve_explicit backend options t bs ds Hbt Hany)
    as (matching & Hsub & Hmem & Hnil & Hcons).
  exists matching. split; [done|]. split; [done|].
  rewrite (FindBrowser_accepted _ _ _ _ _ _ Hfake Hacc Hagg).
  destruct matching as [|m ms].
  - by rewrite Hnil, app_nil_r.
  - destruct Hcons as (b & Hmax & Hres); [done|].
    exists b. split; [exact Hmax|]. by rewrite Hres.
Qed.

(** C5.  With [browser_type == "any"], a non-empty list of aggregated
    candidates and every candidate's type among the declared types,
    [FindBrowser] returns the first candidate whose type has the least
    index, that is the least first position, in
    [FindAllBrowserTypes(options)], which is the desktop
    finder's list followed by the Android finder's and the ChromeOS
    finder's.  Only the type names decide: on any other candidates with
    the same type names in the same order, whatever their modification
    times, the selection picks the candidate at the same position. *)
Theorem FindBrowser_any (options : Options)
  (tr : list Ev) (bs ds : list Browser) :
  let types :=
    Backend.FindAllBrowserTypes (backend desktop_browser_finder) options
    ++ Backend.FindAllBrowserTypes (backend android_browser_finder) options
    ++ Backend.FindAllBrowserTypes (backend cros_browser_finder) options in
  ~ is_fake options -> ~ rejected options ->
  BrowserFinderOptions.browser_type options = Some "any" ->
  Aggregate' options = (tr, inr (bs, ds)) ->
  bs <> [] ->
  (forall b, b ∈ bs -> PossibleBrowser.browser_type b ∈ types) ->
  FindAllBrowserTypes backend options
  = (FindAllBrowserTypes_calls, inr types) /\
  exists b, first_of_least_position types bs b /\
    FindBrowser' options
    = (tr ++ FindAllBrowserTypes_calls ++ [UpdateExecutableIfNeeded_call b],
       inr (Some b)) /\
    forall bs' ds' : list Browser,
      map PossibleBrowser.browser_type bs'
      = map PossibleBrowser.browser_type bs ->
      exists i b', bs !! i = Some b /\ bs' !! i = Some b' /\
        Resolve backend options bs' ds'
        = (FindAllBrowserTypes_calls ++ [UpdateExecutableIfNeeded_call b'],
           inr (Some b')).
Proof.
  intros types Hfake Hacc Hbt Hagg Hbs Hin.
  split; [apply FindAllBrowserTypes_eq|].
  destruct (Resolve_any backend options bs ds Hbt Hbs Hin)
    as (b & Hmin & Hres).
  exists b. split; [by apply first_min_least_position|]. split.
  { rewrite (FindBrowser_accepted _ _ _ _ _ _ Hfake Hacc Hagg).
    by rewrite Hres. }
  intros bs' ds' Hsame.
  destruct (Resolve_any backend options bs' ds' Hbt)
    as (b' & Hmin' & Hres').
  { intros ->. by destruct bs. }
  { intros c Hc.
    assert (PossibleBrowser.browser_type c
            ∈ map PossibleBrowser.browser_type bs) as Ht
      by (rewrite <- Hsame; apply list_elem_of_fmap; eauto).
    apply list_elem_of_fmap in Ht as (c0 & -> & Hc0). by apply Hin. }
  destruct (first_min_same_position (type_index types) bs bs' b b'
              Hmin Hmin') as (i & Hi & Hi').
  { assert (forall l : list Browser,
              map (type_index types) l
              = map (list_index_in types)
                  (map PossibleBrowser.browser_type l)) as Hcomp
      by (intros l; by rewrite map_map).
    by rewrite !Hcomp, Hsame. }
  by exists i, b'.
Qed.

(** C6.  A run of [FindBrowser] on a configuration other than the test
    double that returns a candidate has exactly one hook call in its
    trace, the hook of that candidate, as its last event; a run that
    returns [None] or raises has no hook call in its trace. *)
Theorem FindBrowser_update_hook (options : Options) (tr : list Ev)
  (r : Exn + option Browser) :
  FindBrowser' options = (tr, r) ->
  match r with
  | inr (Some b) =>
      ~ is_fake options ->
      exists tr', tr = tr' ++ [UpdateExecutableIfNeeded_call b] /\
                  updates tr' = []
  | _ => updates tr = []
  end.
Proof.
  intros Hrun.
  destruct (decide (BrowserFinderOptions.class_name options
                    = "_FakeBrowserFinderOptions")) as [Hfake|Hfake].
  { rewrite (FindBrowser_fake _ _ _ Hfake) in Hrun. injection Hrun as <- <-.
    by destruct (BrowserFinderOptions.fake_possible_browser options). }
  destruct (check_options_cases (Device := Device) options)
    as [[Hrej _]|[Hacc _]].
  { destruct (FindBrowser_rejected backend GetDevicesMatchingOptions
                options Hfake Hrej) as [msg Hr].
    rewrite Hr in Hrun. by injection Hrun as <- <-. }
  destruct (Aggregate_returns backend GetDevicesMatchingOptions options)
    as (t & bs & ds & Hagg & Hq & _).
  rewrite (FindBrowser_accepted _ _ _ _ _ _ Hfake Hacc Hagg) in Hrun.
  pose proof (Resolve_discipline backend options bs ds) as Hd.
  assert (updates (GetDevicesMatchingOptions_call :: t) = []) as Hu
    by (by apply (updates_not_update (_ :: _)); constructor).
  destruct (Resolve backend options bs ds) as [t' [e|[b|]]];
    cbn [fst snd] in Hrun; injection Hrun as <- <-;
    rewrite app_comm_cons.
  - destruct Hd as [Hd _]. by rewrite updates_app, Hu, Hd.
  - intros _. destruct Hd as (t'' & -> & Hd).
    exists ((GetDevicesMatchingOptions_call :: t) ++ t'').
    split; [by rewrite app_assoc|]. by rewrite updates_app, Hu, Hd.
  - by rewrite updates_app, Hu, Hd.
Qed.

(** C9, as amended.  A configuration on which [FindBrowser] goes on to
    enumerate the devices has [browser_executable] set exactly when
    [browser_type] is "exact", has [cros_remote] set only when
    [browser_type] is "cros-chrome" or "cros-chrome-guest", and has
    [cros_remote] set when [browser_type] is "cros-chrome". *)
Theorem FindBrowser_accepted_invariant (options : Options) :
  GetDevicesMatchingOptions_call ∈ (FindBrowser' options).1 ->
  (BrowserFinderOptions.browser_executable options <> None <->
   BrowserFinderOptions.browser_type options = Some "exact") /\
  (BrowserFinderOptions.cros_remote options <> None ->
   BrowserFinderOptions.browser_type options = Some "cros-chrome" \/
   BrowserFinderOptions.browser_type options = Some "cros-chrome-guest") /\
  (BrowserFinderOptions.browser_type options = Some "cros-chrome" ->
   BrowserFinderOptions.cros_remote options <> None).
Proof.
  intros Hin.
  destruct (decide (BrowserFinderOptions.class_name options
                    = "_FakeBrowserFinderOptions")) as [Hfake|Hfake].
  { rewrite (FindBrowser_fake _ _ _ Hfake) in Hin. by apply elem_of_nil in Hin. }
  destruct (check_options_cases (Device := Device) options)
    as [[Hrej _]|[Hacc _]].
  { destruct (FindBrowser_rejected backend GetDevicesMatchingOptions
                options Hfake Hrej) as [msg Hr].
    rewrite Hr in Hin. by apply elem_of_nil in Hin. }
  unfold rejected in Hacc. simpl in Hacc.
  destruct (decide (BrowserFinderOptions.browser_type options = Some "exact"));
    destruct (decide (BrowserFinderOptions.browser_type options
                      = Some "cros-chrome"));
    destruct (decide (BrowserFinderOptions.browser_type options
                      = Some "cros-chrome-guest"));
    destruct (BrowserFinderOptions.browser_executable options);
    destruct (BrowserFinderOptions.cros_remote options);
    intuition congruence.
Qed.

(** C10.  On an options object of class [_FakeBrowserFinderOptions],
    [FindBrowser] returns [options.fake_possible_browser] with an empty
    trace: nothing is checked, no device is enumerated, no backend is
    asked and no hook runs, whatever the other attributes are. *)
Theorem FindBrowser_fake_options (options : Options) :
  is_fake options ->
  FindBrowser' options
  = ([], inr (BrowserFinderOptions.fake_possible_browser options)).
Proof. apply FindBrowser_fake. Qed.

(** C7, as amended.  Take two calls of the decorated [FindBrowser] in one
    process whose configurations have the same key, the first of which
    returns [r], whatever calls happen in between.  The second call
    returns [r] and calls no collaborator, and over the two calls each
    backend's [FindAllAvailableBrowsers] is called at most once per
    matching device. *)
Theorem Cache_FindBrowser_second_call (cache_key : Options -> string)
  (store store1 store2 : gmap string (option Browser))
  (o1 o2 : Options) (tr1 : list Ev) (r : option Browser) :
  cache_key o1 = cache_key o2 ->
  Cache cache_key FindBrowser' store o1 = (store1, (tr1, inr r)) ->
  store1 ⊆ store2 ->
  exists tr2,
    Cache cache_key FindBrowser' store2 o2 = (store2, (tr2, inr r)) /\
    tr2 = [] /\
    forall finder,
      (discovery_calls finder (tr1 ++ tr2)
       <= length (GetDevicesMatchingOptions o1))%nat.
Proof.
  intros Hkey Hfirst Hsub.
  destruct (Cache_stores_result _ _ _ _ _ _ _ Hfirst) as [Hl Htr].
  exists []. split; [|split; [done|]].
  - apply Cache_hit. rewrite <- Hkey.
    by apply (lookup_weaken store1 store2).
  - intros finder. rewrite app_nil_r. destruct Htr as [->|Htr].
    + unfold discovery_calls. simpl. lia.
    + pose proof (FindBrowser_discovery_bound backend
                    GetDevicesMatchingOptions o1 finder) as Hb.
      by rewrite <- Htr in Hb.
Qed.

(** C8, as amended.  [GetAllAvailableBrowserTypes] returns a list in
    ascending order and without duplicate.  Its members are the type
    names of the candidates discovered on the matching devices that are
    not [None], and "reference" when such a discovered candidate
    has a [target_os] equal to "darwin" or starting with "linux" or
    "win"; "reference" then occurs once, however many such candidates
    there are.  Since no backend reports a candidate of type
    "reference" (the comment at lines 163-164), "reference" is in the
    list exactly when there is such a candidate. *)
Theorem GetAllAvailableBrowserTypes_spec (options : Options) :
  exists tr types,
    GetAllAvailableBrowserTypes backend GetDevicesMatchingOptions options
    = (tr, inr types) /\
    StronglySorted str_le types /\ NoDup types /\
    (forall t, t ∈ types <->
       (exists b, discovered backend GetDevicesMatchingOptions options b /\
                  PossibleBrowser.browser_type b = t) \/
       (t = "reference" /\
        exists b, discovered backend GetDevicesMatchingOptions options b /\
                  desktop_os b)) /\
    ((exists b, discovered backend GetDevicesMatchingOptions options b /\
                desktop_os b) ->
     count_occ string_dec types "reference" = 1%nat) /\
    ((forall b, discovered backend GetDevicesMatchingOptions options b ->
                PossibleBrowser.browser_type b <> "reference") ->
     ("reference" ∈ types <->
      exists b, discovered backend GetDevicesMatchingOptions options b /\
                desktop_os b)).
Proof.
  unfold GetAllAvailableBrowserTypes, call_GetDevicesMatchingOptions.
  destruct (possible_browsers_loop backend options
              (GetDevicesMatchingOptions options) []) as [tr Hloop].
  simpl in Hloop. simpl. unfold bind at 1. rewrite Hloop.
  set (possible := flat_map _ (GetDevicesMatchingOptions options)).
  set (X := add_reference possible _).
  eexists _, _. split; [reflexivity|].
  destruct (sorted_elements_spec X) as (Hs & Hn & Hm).
  assert (forall t, t ∈ merge_sort str_le (elements X) <->
    (exists b, discovered backend GetDevicesMatchingOptions options b /\
               PossibleBrowser.browser_type b = t) \/
    (t = "reference" /\
     exists b, discovered backend GetDevicesMatchingOptions options b /\
               desktop_os b)) as Hmem.
  { intros t. rewrite Hm. unfold X. rewrite add_reference_spec.
    rewrite elem_of_list_to_set, list_elem_of_fmap.
    assert (forall b, b ∈ possible <->
              discovered backend GetDevicesMatchingOptions options b) as Hpd
      by (intros b; apply possible_browsers_discovered).
    split.
    - intros [(b & Ht & Hb)|(-> & b & Hb & Hos)]; [left|right].
      + exists b. split; [by apply Hpd|done].
      + split; [done|]. exists b. split; [by apply Hpd|done].
    - intros [(b & Hb & Ht)|(-> & b & Hb & Hos)]; [left|right].
      + exists b. split; [done|by apply Hpd].
      + split; [done|]. exists b. split; [by apply Hpd|done]. }
  split; [done|]. split; [done|]. split; [done|]. split.
  - intros Hex. apply (proj1 (NoDup_count_occ' string_dec _)
                            (proj1 (NoDup_ListNoDup _) Hn)).
    apply list_elem_of_In, Hmem. by right.
  - intros Hnone. split.
    + intros [(b & Hb & Ht)|[_ ?]]%Hmem; [|done]. by destruct (Hnone b).
    + intros Hex. apply Hmem. by right.
Qed.

End Resolution.

(** * The contract on the sample configurations *)

Import Sample.

Ltac not_rejected :=
  unfold rejected; simpl; intuition congruence.

(** The test double with "exact" and no executable is under the first
    of the four conditions, yet [FindBrowser] returns and raises
    nothing: the statement of C1 does not hold of every options
    object. *)
Lemma FindBrowser_fake_options_not_rejected :
  let o := fake_options (Some "exact") None None (Some release) in
  rejected o /\
  FindBrowser two_defaults devices_0_1 o = ([], inr (Some release)) /\
  ~ raises_BrowserFinderException (FindBrowser two_defaults devices_0_1 o).
Proof.
  simpl. split; [left; done|]. split; [reflexivity|].
  intros [msg H]. discriminate H.
Qed.

Lemma FindBrowser_configuration_error_witness :
  let o := options (Some "exact") None None in
  (rejected o ->
   exists msg, FindBrowser two_defaults devices_0_1 o
               = ([], inl (BrowserFinderException msg))) /\
  (~ rejected o ->
   ~ raises_BrowserFinderException (FindBrowser two_defaults devices_0_1 o)).
Proof.
  apply (FindBrowser_configuration_error two_defaults devices_0_1
           (options (Some "exact") None None)).
  unfold is_fake. simpl. discriminate.
Defined.

(** Defaults with the times 100 and 200: the one with 200 is chosen. *)
Lemma FindBrowser_most_recent_default_witness :
  let o := options None None None in
  exists b,
    first_max PossibleBrowser.last_modification_time
      [release; android_chromium] b /\
    FindBrowser two_defaults devices_0_1 o
    = ((Aggregate two_defaults devices_0_1 o).1
         ++ [UpdateExecutableIfNeeded_call b], inr (Some b)).
Proof.
  apply (FindBrowser_most_recent_default two_defaults devices_0_1
           (options None None None)
           (Aggregate two_defaults devices_0_1 (options None None None)).1
           [release; android_chromium] [release; android_chromium]).
  - unfold is_fake. simpl. discriminate.
  - not_rejected.
  - reflexivity.
  - reflexivity.
  - discriminate.
  - discriminate.
Defined.

(** Backends that find nothing and still name a default: the list of
    defaults is not empty, yet [FindBrowser] returns [None] and no
    default. *)
Lemma FindBrowser_default_without_candidate :
  let o := options None None None in
  (Aggregate default_from_nothing devices_0 o).2
  = inr ([], [release; release]) /\
  (FindBrowser default_from_nothing devices_0 o).2 = inr None.
Proof. split; reflexivity. Qed.

Example most_recent_default_is_200 :
  (FindBrowser two_defaults devices_0_1 (options None None None)).2
  = inr (Some android_chromium).
Proof. reflexivity. Qed.

(** Two defaults with the same time: the one seen first is chosen. *)
Example equal_times_first_seen :
  py_max (A := Browser) key_time
    [browser "a" "linux" 7; browser "b" "linux" 9; browser "c" "linux" 9;
     browser "d" "linux" 8]
  = Some (browser "b" "linux" 9).
Proof. reflexivity. Qed.

Lemma FindBrowser_type_omitted_no_default_witness :
  let o := options None None None in
  exists names,
    FindBrowser no_defaults devices_0_1 o
    = ((Aggregate no_defaults devices_0_1 o).1,
       inl (BrowserTypeRequiredException (type_required_message names))) /\
    StronglySorted str_le names /\ NoDup names /\
    forall t, t ∈ names <->
      exists b, b ∈ [release; android_chromium] /\
                PossibleBrowser.browser_type b = t.
Proof.
  apply (FindBrowser_type_omitted_no_default no_defaults devices_0_1
           (options None None None)
           (Aggregate no_defaults devices_0_1 (options None None None)).1
           [release; android_chromium]).
  - unfold is_fake. simpl. discriminate.
  - not_rejected.
  - reflexivity.
  - reflexivity.
Defined.

Example type_required_message_sample :
  (FindBrowser no_defaults devices_0_1 (options None None None)).2
  = inl (BrowserTypeRequiredException
           (type_required_message ["android-chromium"; "release"])).
Proof. reflexivity. Qed.

Example single_candidate_sample :
  (FindBrowser no_defaults devices_0 (options None None None)).2
  = inr (Some release).
Proof. reflexivity. Qed.

Lemma FindBrowser_explicit_type_witness :
  let o := options (Some "debug") None None in
  exists matching,
    sublist matching [debug_old; release; debug; exact] /\
    (forall b, b ∈ matching <->
       b ∈ [debug_old; release; debug; exact] /\ matches o "debug" b) /\
    match matching with
    | [] => FindBrowser desktop_only devices_0 o
            = ((Aggregate desktop_only devices_0 o).1, inr None)
    | _ :: _ =>
      exists b, first_max PossibleBrowser.last_modification_time matching b /\
        FindBrowser desktop_only devices_0 o
        = ((Aggregate desktop_only devices_0 o).1
             ++ [UpdateExecutableIfNeeded_call b], inr (Some b))
    end.
Proof.
  apply (FindBrowser_explicit_type desktop_only devices_0
           (options (Some "debug") None None) "debug"
           (Aggregate desktop_only devices_0
              (options (Some "debug") None None)).1
           [debug_old; release; debug; exact] []).
  - unfold is_fake. simpl. discriminate.
  - not_rejected.
  - reflexivity.
  - discriminate.
  - reflexivity.
Defined.

Example explicit_type_sample :
  (FindBrowser desktop_only devices_0 (options (Some "debug") None None)).2
  = inr (Some debug).
Proof. reflexivity. Qed.

Example explicit_type_no_match :
  (FindBrowser desktop_only devices_0 (options (Some "canary") None None)).2
  = inr None.
Proof. reflexivity. Qed.

Lemma FindBrowser_any_witness :
  let o := options (Some "any") None None in
  let types := desktop_types ++ android_types ++ cros_types in
  FindAllBrowserTypes desktop_only o = (FindAllBrowserTypes_calls, inr types)
  /\
  exists b,
    first_of_least_position types [debug_old; release; debug; exact] b
    /\ FindBrowser desktop_only devices_0 o
       = ((Aggregate desktop_only devices_0 o).1
            ++ FindAllBrowserTypes_calls
            ++ [UpdateExecutableIfNeeded_call b], inr (Some b))
    /\ forall bs' ds' : list Browser,
         map PossibleBrowser.browser_type bs'
         = map PossibleBrowser.browser_type
             [debug_old; release; debug; exact] ->
         exists i b',
           [debug_old; release; debug; exact] !! i = Some b /\
           bs' !! i = Some b' /\
           Resolve desktop_only o bs' ds'
           = (FindAllBrowserTypes_calls
                ++ [UpdateExecutableIfNeeded_call b'], inr (Some b')).
Proof.
  apply (FindBrowser_any desktop_only devices_0
           (options (Some "any") None None)
           (Aggregate desktop_only devices_0
              (options (Some "any") None None)).1
           [debug_old; release; debug; exact] []).
  - unfold is_fake. simpl. discriminate.
  - not_rejected.
  - reflexivity.
  - reflexivity.
  - discriminate.
  - intros b Hb. apply str_in_spec.
    repeat (apply elem_of_cons in Hb as [->|Hb]; [reflexivity|]).
    by apply elem_of_nil in Hb.
Defined.

(** The oldest build wins when its type is declared first. *)
Example any_sample :
  (FindBrowser desktop_only devices_0 (options (Some "any") None None)).2
  = inr (Some exact).
Proof. reflexivity. Qed.

Lemma FindBrowser_update_hook_witness :
  let o := options None None None in
  exists tr',
    (FindBrowser two_defaults devices_0_1 o).1
    = tr' ++ [UpdateExecutableIfNeeded_call android_chromium] /\
    updates tr' = [].
Proof.
  apply (FindBrowser_update_hook two_defaults devices_0_1
           (options None None None)
           (FindBrowser two_defaults devices_0_1 (options None None None)).1
           (inr (Some android_chromium))).
  - reflexivity.
  - unfold is_fake. simpl. discriminate.
Defined.

(** "cros-chrome-guest" without [cros_remote] passes the four checks:
    the devices are enumerated although [cros_remote] is unset for a
    ChromeOS type. *)
Lemma cros_chrome_guest_without_remote :
  let o := options (Some "cros-chrome-guest") None None in
  GetDevicesMatchingOptions_call ∈ (FindBrowser desktop_only devices_0 o).1
  /\
  ~ (BrowserFinderOptions.cros_remote o <> None <->
     BrowserFinderOptions.browser_type o = Some "cros-chrome" \/
     BrowserFinderOptions.browser_type o = Some "cros-chrome-guest").
Proof.
  simpl. split; [by left|]. intros [_ H]. by apply H; [right|].
Qed.

Lemma FindBrowser_accepted_invariant_witness :
  let o := options (Some "cros-chrome-guest") None (Some "10.0.0.1") in
  (BrowserFinderOptions.browser_executable o <> None <->
   BrowserFinderOptions.browser_type o = Some "exact") /\
  (BrowserFinderOptions.cros_remote o <> None ->
   BrowserFinderOptions.browser_type o = Some "cros-chrome" \/
   BrowserFinderOptions.browser_type o = Some "cros-chrome-guest") /\
  (BrowserFinderOptions.browser_type o = Some "cros-chrome" ->
   BrowserFinderOptions.cros_remote o <> None).
Proof.
  apply (FindBrowser_accepted_invariant desktop_only devices_0
           (options (Some "cros-chrome-guest") None (Some "10.0.0.1"))).
  vm_compute. by left.
Defined.

Lemma FindBrowser_fake_options_witness :
  let o := fake_options (Some "exact") None None (Some release) in
  FindBrowser two_defaults devices_0_1 o = ([], inr (Some release)).
Proof.
  apply (FindBrowser_fake_options two_defaults devices_0_1
           (fake_options (Some "exact") None None (Some release))).
  reflexivity.
Defined.

(** With two matching devices one call alone asks the desktop finder
    twice for its candidates, so the two calls together ask it more
    than once. *)
Lemma FindBrowser_discovery_per_device :
  let o := options None None None in
  let first := Cache cache_key (FindBrowser two_defaults devices_0_1) ∅ o in
  let second :=
    Cache cache_key (FindBrowser two_defaults devices_0_1) first.1 o in
  first.2.2 = inr (Some android_chromium) /\
  second.2 = ([], inr (Some android_chromium)) /\
  discovery_calls desktop_browser_finder (first.2.1 ++ second.2.1) = 2%nat /\
  ~ (discovery_calls desktop_browser_finder (first.2.1 ++ second.2.1)
     <= 1)%nat.
Proof.
  vm_compute. repeat split; try reflexivity. intros H.
  by apply Nat.nle_succ_diag_l in H.
Qed.

Lemma Cache_FindBrowser_second_call_witness :
  let o := options None None None in
  let first := Cache cache_key (FindBrowser two_defaults devices_0_1) ∅ o in
  exists tr2,
    Cache cache_key (FindBrowser two_defaults devices_0_1) first.1 o
    = (first.1, (tr2, inr (Some android_chromium))) /\
    tr2 = [] /\
    forall finder,
      (discovery_calls finder (first.2.1 ++ tr2)
       <= length (devices_0_1 o))%nat.
Proof.
  apply (Cache_FindBrowser_second_call two_defaults devices_0_1 cache_key
           ∅
           (Cache cache_key (FindBrowser two_defaults devices_0_1) ∅
              (options None None None)).1
           (Cache cache_key (FindBrowser two_defaults devices_0_1) ∅
              (options None None None)).1
           (options None None None) (options None None None)
           (Cache cache_key (FindBrowser two_defaults devices_0_1) ∅
              (options None None None)).2.1
           (Some android_chromium)).
  - reflexivity.
  - reflexivity.
  - reflexivity.
Defined.

Lemma GetAllAvailableBrowserTypes_spec_witness :
  let o := options None None None in
  exists tr types,
    GetAllAvailableBrowserTypes two_defaults devices_0_1 o
    = (tr, inr types) /\
    StronglySorted str_le types /\ NoDup types /\
    (forall t, t ∈ types <->
       (exists b, discovered two_defaults devices_0_1 o b /\
                  PossibleBrowser.browser_type b = t) \/
       (t = "reference" /\
        exists b, discovered two_defaults devices_0_1 o b /\
                  desktop_os b)) /\
    ((exists b, discovered two_defaults devices_0_1 o b /\ desktop_os b) ->
     count_occ string_dec types "reference" = 1%nat) /\
    ((forall b, discovered two_defaults devices_0_1 o b ->
                PossibleBrowser.browser_type b <> "reference") ->
     ("reference" ∈ types <->
      exists b, discovered two_defaults devices_0_1 o b /\ desktop_os b)).
Proof.
  exact (GetAllAvailableBrowserTypes_spec two_defaults devices_0_1
           (options None None None)).
Defined.

(** The only matching device is [None]: the desktop finder reports a
    Linux build for it, which [FindBrowser] returns, yet the list of
    available types holds neither its type nor "reference". *)
Lemma GetAllAvailableBrowserTypes_None_device :
  let o := options None None None in
  None ∈ devices_null o /\
  release
  ∈ Backend.FindAllAvailableBrowsers (local_release desktop_browser_finder)
      o None /\
  PossibleBrowser.target_os release = "linux" /\
  (FindBrowser local_release devices_null o).2 = inr (Some release) /\
  GetAllAvailableBrowserTypes local_release devices_null o
  = ([GetDevicesMatchingOptions_call], inr []).
Proof.
  simpl. split; [by left|]. split; [by left|]. repeat split; reflexivity.
Qed.

Example available_types_sample :
  (GetAllAvailableBrowserTypes two_defaults devices_0_1
     (options None None None)).2
  = inr ["android-chromium"; "reference"; "release"].
Proof. vm_compute. reflexivity. Qed.

(** * Further properties of the module *)

Lemma filter_none {A} (p : A -> bool) (l : list A) :
  (forall x, In x l -> p x = false) -> List.filter p l = [].
Proof.
  induction l as [|x l IH]; intros H; simpl; [done|].
  rewrite (H x) by (by left). apply IH. intros y Hy. apply H. by right.
Qed.

Section Aggregation.
Context {BrowserOptions Device : Type}.

Abbreviation Options := (BrowserFinderOptions.t BrowserOptions).
Abbreviation Browser := (PossibleBrowser.t BrowserOptions).
Abbreviation Ev := (Event BrowserOptions Device).

Variable backend : BrowserFinderModule -> Backend.t BrowserOptions Device.
Variable GetDevicesMatchingOptions : Options -> list (option Device).

(** One round of the loop, as an equation. *)
Lemma aggregate_step_eq (options : Options) (device : option Device)
  (bs ds : list Browser) (finder : BrowserFinderModule) :
  aggregate_step backend options device (bs, ds) finder
  = (step_calls backend options device finder,
     inr (if finder_skipped backend options finder then (bs, ds)
          else (bs ++ found_by backend options device finder,
                ds ++ default_by backend options device finder))).
Proof.
  unfold aggregate_step, step_calls, finder_skipped, type_is_explicit,
    default_by, found_by, call_FindAllBrowserTypes,
    call_FindAllAvailableBrowsers, call_SelectDefaultBrowser.
  destruct (truthy _ && negb _); simpl.
  - destruct (str_in _ _); simpl; [|done].
    destruct (Backend.SelectDefaultBrowser _ _); simpl;
      by rewrite ?app_nil_r.
  - destruct (Backend.SelectDefaultBrowser _ _); simpl;
      by rewrite ?app_nil_r.
Qed.

(** The loop over the backends for one device. *)
Lemma aggregate_finders_eq (options : Options) (device : option Device)
  (finders : list BrowserFinderModule) (bs ds : list Browser) :
  for_each finders (aggregate_step backend options device) (bs, ds)
  = (flat_map (step_calls backend options device) finders,
     inr (bs ++ flat_map (found_by backend options device)
                  (asked_finders backend options finders),
          ds ++ flat_map (default_by backend options device)
                  (asked_finders backend options finders))).
Proof.
  revert bs ds. induction finders as [|f finders IH]; intros bs ds.
  - simpl. by rewrite !app_nil_r.
  - cbn [for_each flat_map]. unfold bind at 1.
    rewrite aggregate_step_eq. unfold asked_finders. cbn [List.filter].
    destruct (finder_skipped backend options f); cbn [negb].
    + rewrite IH. reflexivity.
    + rewrite IH. cbn [flat_map]. by rewrite !app_assoc.
Qed.

(** The whole aggregation, as an equation: its calls and its two
    lists. *)
Lemma Aggregate_eq (options : Options) :
  Aggregate backend GetDevicesMatchingOptions options
  = (GetDevicesMatchingOptions_call
       :: aggregate_calls backend GetDevicesMatchingOptions options,
     inr (aggregated_browsers backend GetDevicesMatchingOptions options,
          aggregated_defaults backend GetDevicesMatchingOptions options)).
Proof.
  unfold Aggregate, call_GetDevicesMatchingOptions, aggregate_calls,
    aggregated_browsers, aggregated_defaults.
  generalize (GetDevicesMatchingOptions options) as devices.
  intros devices.
  assert (forall bs ds : list Browser,
    for_each devices
      (fun acc device =>
         for_each BROWSER_FINDERS (aggregate_step backend options device) acc)
      (bs, ds)
    = (flat_map (fun device =>
         flat_map (step_calls backend options device) BROWSER_FINDERS)
         devices,
       inr (bs ++ flat_map (fun device =>
                    flat_map (found_by backend options device)
                      (asked_finders backend options BROWSER_FINDERS))
                    devices,
            ds ++ flat_map (fun device =>
                    flat_map (default_by backend options device)
                      (asked_finders backend options BROWSER_FINDERS))
                    devices))) as Hloop.
  { induction devices as [|d devices IH]; intros bs ds.
    - simpl. by rewrite !app_nil_r.
    - cbn [for_each]. unfold bind at 1.
      rewrite (aggregate_finders_eq options d BROWSER_FINDERS bs ds).
      rewrite IH. cbn [flat_map]. by rewrite !app_assoc. }
  unfold bind, emit, ret. cbv beta iota. rewrite (Hloop [] []).
  reflexivity.
Qed.

Lemma BROWSER_FINDERS_complete (finder : BrowserFinderModule) :
  In finder BROWSER_FINDERS.
Proof. destruct finder; simpl; tauto. Qed.

Lemma asked_finders_spec (options : Options) (finder : BrowserFinderModule) :
  In finder (asked_finders backend options BROWSER_FINDERS)
  <-> finder_skipped backend options finder = false.
Proof.
  unfold asked_finders. rewrite filter_In, negb_true_iff.
  split; [tauto|]. intros H. split; [apply BROWSER_FINDERS_complete|done].
Qed.

(** A candidate is aggregated exactly when a backend that is not passed
    over finds it on a matching device. *)
Lemma aggregated_browsers_spec (options : Options) (b : Browser) :
  b ∈ aggregated_browsers backend GetDevicesMatchingOptions options
  <-> exists device finder,
        device ∈ GetDevicesMatchingOptions options /\
        finder_skipped backend options finder = false /\
        b ∈ found_by backend options device finder.
Proof.
  unfold aggregated_browsers. rewrite list_elem_of_In, in_flat_map. split.
  - intros (d & Hd & Hb). apply in_flat_map in Hb as (f & Hf & Hb).
    exists d, f. rewrite !list_elem_of_In.
    by apply asked_finders_spec in Hf.
  - intros (d & f & Hd & Hf & Hb). exists d.
    rewrite !list_elem_of_In in *. split; [done|].
    apply in_flat_map. exists f. by rewrite asked_finders_spec.
Qed.

(** A default is aggregated exactly when a backend that is not passed
    over names it for what it found on a matching device. *)
Lemma aggregated_defaults_spec (options : Options) (d : Browser) :
  d ∈ aggregated_defaults backend GetDevicesMatchingOptions options
  <-> exists device finder,
        device ∈ GetDevicesMatchingOptions options /\
        finder_skipped backend options finder = false /\
        Backend.SelectDefaultBrowser (backend finder)
          (found_by backend options device finder) = Some d.
Proof.
  unfold aggregated_defaults. rewrite list_elem_of_In, in_flat_map. split.
  - intros (dev & Hdev & Hd). apply in_flat_map in Hd as (f & Hf & Hd).
    exists dev, f. rewrite list_elem_of_In.
    apply asked_finders_spec in Hf. repeat split; try done.
    unfold default_by in Hd.
    destruct (Backend.SelectDefaultBrowser _ _) as [d0|]; [|done].
    by destruct Hd as [->|[]].
  - intros (dev & f & Hdev & Hf & Hd). exists dev.
    rewrite list_elem_of_In in Hdev. split; [done|].
    apply in_flat_map. exists f. rewrite asked_finders_spec.
    split; [done|]. unfold default_by. rewrite Hd. by left.
Qed.

(** The run of [FindBrowser] on an accepted configuration that is not
    the test double. *)
Lemma FindBrowser_eq (options : Options) :
  ~ is_fake options -> ~ rejected options ->
  FindBrowser backend GetDevicesMatchingOptions options
  = ((GetDevicesMatchingOptions_call
        :: aggregate_calls backend GetDevicesMatchingOptions options)
     ++ (Resolve backend options
           (aggregated_browsers backend GetDevicesMatchingOptions options)
           (aggregated_defaults backend GetDevicesMatchingOptions options)).1,
     (Resolve backend options
        (aggregated_browsers backend GetDevicesMatchingOptions options)
        (aggregated_defaults backend GetDevicesMatchingOptions options)).2).
Proof.
  intros Hfake Hacc.
  apply (FindBrowser_accepted backend GetDevicesMatchingOptions options
           _ _ _ Hfake Hacc).
  apply Aggregate_eq.
Qed.

(** The three ways a run of [FindBrowser] starts. *)
Lemma FindBrowser_cases (options : Options) :
  (is_fake options /\
   FindBrowser backend GetDevicesMatchingOptions options
   = ([], inr (BrowserFinderOptions.fake_possible_browser options))) \/
  (~ is_fake options /\ rejected options /\
   exists msg, FindBrowser backend GetDevicesMatchingOptions options
               = ([], inl (BrowserFinderException msg))) \/
  (~ is_fake options /\ ~ rejected options /\
   FindBrowser backend GetDevicesMatchingOptions options
   = ((GetDevicesMatchingOptions_call
         :: aggregate_calls backend GetDevicesMatchingOptions options)
      ++ (Resolve backend options
            (aggregated_browsers backend GetDevicesMatchingOptions options)
            (aggregated_defaults backend GetDevicesMatchingOptions options)).1,
      (Resolve backend options
         (aggregated_browsers backend GetDevicesMatchingOptions options)
         (aggregated_defaults backend GetDevicesMatchingOptions options)).2)).
Proof.
  destruct (decide (BrowserFinderOptions.class_name options
                    = "_FakeBrowserFinderOptions")) as [Hfake|Hfake].
  { left. split; [done|]. by apply FindBrowser_fake. }
  right.
  destruct (check_options_cases (Device := Device) options)
    as [[Hrej _]|[Hacc _]].
  - left. split; [done|]. split; [done|]. by apply FindBrowser_rejected.
  - right. split; [done|]. split; [done|]. by apply FindBrowser_eq.
Qed.

(** The selection calls no backend for candidates or defaults and does
    not enumerate the devices. *)
Lemma Resolve_calls (options : Options) (bs ds : list Browser) (ev : Ev) :
  ev ∈ (Resolve backend options bs ds).1 ->
  (exists finder, ev = FindAllBrowserTypes_call finder) \/
  (exists b, ev = UpdateExecutableIfNeeded_call b).
Proof.
  unfold Resolve. destruct bs as [|b0 bs']; [by intros ?%elem_of_nil|].
  destruct (BrowserFinderOptions.browser_type options) as [t|].
  - destruct (String.eqb t "any").
    + rewrite FindAllBrowserTypes_eq. unfold bind.
      destruct (py_min _ b0 bs') as [c|]; simpl.
      * intros H. repeat (apply elem_of_cons in H as [->|H]; [eauto|]).
        by apply elem_of_nil in H.
      * intros H. repeat (apply elem_of_cons in H as [->|H]; [eauto|]).
        by apply elem_of_nil in H.
    + destruct (List.filter _ (b0 :: bs')) as [|m ms];
        [by intros ?%elem_of_nil|].
      simpl. intros H. apply elem_of_cons in H as [->|H]; [eauto|].
      by apply elem_of_nil in H.
  - destruct ds as [|d ds'].
    + destruct (length (b0 :: bs') =? 1)%nat; simpl;
        [|by intros ?%elem_of_nil].
      intros H. apply elem_of_cons in H as [->|H]; [eauto|].
      by apply elem_of_nil in H.
    + simpl. intros H. apply elem_of_cons in H as [->|H]; [eauto|].
      by apply elem_of_nil in H.
Qed.

Lemma step_calls_discovery (options : Options) (d : option Device)
  (f g : BrowserFinderModule) :
  length (List.filter (is_discovery_by f) (step_calls backend options d g))
  = if finder_eqb g f && negb (finder_skipped backend options g)
    then 1%nat else 0%nat.
Proof.
  unfold step_calls.
  destruct (type_is_explicit options);
    destruct (finder_skipped backend options g); simpl;
    destruct (finder_eqb g f); reflexivity.
Qed.

Lemma step_calls_select (options : Options) (d : option Device)
  (f g : BrowserFinderModule) :
  length (List.filter (is_select_by f) (step_calls backend options d g))
  = if finder_eqb g f && negb (finder_skipped backend options g)
    then 1%nat else 0%nat.
Proof.
  unfold step_calls.
  destruct (type_is_explicit options);
    destruct (finder_skipped backend options g); simpl;
    destruct (finder_eqb g f); reflexivity.
Qed.

(** X1.  The aggregation loop of [FindBrowser] enumerates the devices
    once and first; then, device by device and backend by backend in
    the order of [BROWSER_FINDERS], it asks a backend for its types when
    a type other than "any" is requested, and for its candidates and
    its default unless the requested type is missing from those types.
    The candidates are what the backends asked found, in that order;
    the defaults are the defaults they named.  The loop never raises. *)
Theorem Aggregate_run (options : Options) :
  Aggregate backend GetDevicesMatchingOptions options
  = (GetDevicesMatchingOptions_call
       :: flat_map (fun device =>
            flat_map (step_calls backend options device) BROWSER_FINDERS)
            (GetDevicesMatchingOptions options),
     inr (flat_map (fun device =>
            flat_map (found_by backend options device)
              (asked_finders backend options BROWSER_FINDERS))
            (GetDevicesMatchingOptions options),
          flat_map (fun device =>
            flat_map (default_by backend options device)
              (asked_finders backend options BROWSER_FINDERS))
            (GetDevicesMatchingOptions options))).
Proof. apply Aggregate_eq. Qed.

(** X2.  When a type other than "any" is requested, a backend whose
    declared types do not hold it is asked neither for candidates nor
    for a default, on any device, in any run of [FindBrowser]. *)
Theorem FindBrowser_skips_undeclaring_backend (options : Options)
  (t : string) (finder : BrowserFinderModule) :
  BrowserFinderOptions.browser_type options = Some t ->
  t <> "" -> t <> "any" ->
  t ∉ Backend.FindAllBrowserTypes (backend finder) options ->
  forall ev, ev ∈ (FindBrowser backend GetDevicesMatchingOptions options).1 ->
    (forall device, ev <> FindAllAvailableBrowsers_call finder device) /\
    ev <> SelectDefaultBrowser_call finder.
Proof.
  intros Hbt Hne Hany Hnot ev Hev.
  assert (finder_skipped backend options finder = true) as Hskip.
  { unfold finder_skipped, type_is_explicit. rewrite Hbt.
    assert (truthy (Some t) = true) as -> by (by destruct t).
    assert (opt_is (Some t) "any" = false) as ->
      by (apply opt_is_false; congruence).
    cbn [negb andb default from_option].
    apply negb_true_iff. destruct (str_in _ _) eqn:E; [|done].
    by apply str_in_spec in E. }
  destruct (FindBrowser_cases options)
    as [[_ Hrun]|[(_ & _ & msg & Hrun)|(_ & _ & Hrun)]];
    rewrite Hrun in Hev; cbn [fst] in Hev;
    try by apply elem_of_nil in Hev.
  apply elem_of_app in Hev as [Hev|Hev].
  - apply elem_of_cons in Hev as [->|Hev]; [done|].
    unfold aggregate_calls in Hev.
    apply list_elem_of_In, in_flat_map in Hev as (d & _ & Hev).
    apply in_flat_map in Hev as (f & _ & Hev).
    unfold step_calls in Hev. apply in_app_or in Hev as [Hev|Hev].
    + destruct (type_is_explicit options); [|done].
      by destruct Hev as [<-|[]].
    + destruct (finder_skipped backend options f) eqn:Hf; [done|].
      assert (f <> finder) by congruence.
      destruct Hev as [<-|[<-|[]]]; split; congruence.
  - apply Resolve_calls in Hev as [[f ->]|[b ->]]; done.
Qed.

(** X3.  On an accepted configuration that is not the test double, a
    backend that is not passed over is asked for its candidates exactly
    once per matching device, and for its default as often. *)
Theorem FindBrowser_asks_once_per_device (options : Options)
  (finder : BrowserFinderModule) :
  ~ is_fake options -> ~ rejected options ->
  finder_skipped backend options finder = false ->
  discovery_calls finder
    (FindBrowser backend GetDevicesMatchingOptions options).1
  = length (GetDevicesMatchingOptions options) /\
  select_calls finder
    (FindBrowser backend GetDevicesMatchingOptions options).1
  = length (GetDevicesMatchingOptions options).
Proof.
  intros Hfake Hacc Hskip. rewrite (FindBrowser_eq options Hfake Hacc).
  cbn [fst].
  assert (forall p : Ev -> bool,
    (forall g, p (FindAllBrowserTypes_call g) = false) ->
    (forall b, p (UpdateExecutableIfNeeded_call b) = false) ->
    p GetDevicesMatchingOptions_call = false ->
    (forall d, length (List.filter p
       (flat_map (step_calls backend options d) BROWSER_FINDERS)) = 1%nat) ->
    length (List.filter p
      ((GetDevicesMatchingOptions_call
          :: aggregate_calls backend GetDevicesMatchingOptions options)
       ++ (Resolve backend options
             (aggregated_browsers backend GetDevicesMatchingOptions options)
             (aggregated_defaults backend GetDevicesMatchingOptions options)).1))
    = length (GetDevicesMatchingOptions options)) as Hcount.
  { intros p Ht Hu Hg Hone.
    rewrite List.filter_app, length_app. cbn [List.filter]. rewrite Hg.
    assert (List.filter p (Resolve backend options
              (aggregated_browsers backend GetDevicesMatchingOptions options)
              (aggregated_defaults backend GetDevicesMatchingOptions options)).1
            = []) as ->.
    { apply filter_none. intros ev Hev.
      apply list_elem_of_In, Resolve_calls in Hev as [[f ->]|[b ->]];
        auto. }
    simpl. rewrite Nat.add_0_r. unfold aggregate_calls.
    induction (GetDevicesMatchingOptions options) as [|d devices IH];
      [done|].
    cbn [flat_map]. rewrite List.filter_app, length_app, Hone, IH. done. }
  split.
  - apply Hcount; try done. intros d. unfold BROWSER_FINDERS.
    cbn [flat_map]. rewrite !List.filter_app, !length_app.
    rewrite !step_calls_discovery. cbn [List.filter length].
    destruct finder; cbn [finder_eqb andb]; rewrite Hskip; reflexivity.
  - apply Hcount; try done. intros d. unfold BROWSER_FINDERS.
    cbn [flat_map]. rewrite !List.filter_app, !length_app.
    rewrite !step_calls_select. cbn [List.filter length].
    destruct finder; cbn [finder_eqb andb]; rewrite Hskip; reflexivity.
Qed.

(** X4.  On an accepted configuration that is not the test double, when
    no backend finds a candidate on any matching device (in particular
    when no device matches), [FindBrowser] returns [None], whatever
    type is requested: it raises nothing, runs no hook and does not ask
    for the list of all types. *)
Theorem FindBrowser_nothing_found (options : Options) :
  ~ is_fake options -> ~ rejected options ->
  (forall device finder,
     device ∈ GetDevicesMatchingOptions options ->
     Backend.FindAllAvailableBrowsers (backend finder) options device = []) ->
  FindBrowser backend GetDevicesMatchingOptions options
  = (GetDevicesMatchingOptions_call
       :: aggregate_calls backend GetDevicesMatchingOptions options,
     inr None).
Proof.
  intros Hfake Hacc Hnone. rewrite (FindBrowser_eq options Hfake Hacc).
  assert (aggregated_browsers backend GetDevicesMatchingOptions options = [])
    as ->.
  { destruct (aggregated_browsers backend GetDevicesMatchingOptions options)
      as [|b bs] eqn:Hbs; [done|].
    assert (b ∈ aggregated_browsers backend GetDevicesMatchingOptions options)
      as Hb by (rewrite Hbs; by left).
    apply aggregated_browsers_spec in Hb as (d & f & Hd & _ & Hb).
    unfold found_by in Hb. rewrite (Hnone d f Hd) in Hb.
    by apply elem_of_nil in Hb. }
  rewrite Resolve_nil. cbn [fst snd]. by rewrite app_nil_r.
Qed.

Lemma list_index_None (x : string) (l : list string) :
  list_index x l = None <-> x ∉ l.
Proof.
  split.
  - intros Hn Hin. apply list_index_is_Some in Hin as [n Hn']. congruence.
  - induction l as [|y l IH]; intros Hnot; simpl; [done|].
    destruct (String.eqb y x) eqn:E.
    + apply String.eqb_eq in E. subst. exfalso. apply Hnot. by left.
    + rewrite IH; [done|]. intros ?. apply Hnot. by right.
Qed.

Lemma first_max_elem {A} (key : A -> Z) (l : list A) (b : A) :
  first_max key l b -> b ∈ l.
Proof.
  intros (l1 & l2 & -> & _). apply elem_of_app. right. by left.
Qed.

Lemma first_min_elem {A} (key : A -> option nat) (l : list A) (b : A) :
  first_min key l b -> b ∈ l.
Proof.
  intros (kb & l1 & l2 & -> & _). apply elem_of_app. right. by left.
Qed.

(** What each outcome of the selection says about its arguments. *)
Lemma Resolve_outcome (options : Options) (bs ds : list Browser) :
  match (Resolve backend options bs ds).2 with
  | inr (Some b) =>
      (BrowserFinderOptions.browser_type options = None /\
       ((ds <> [] /\ bs <> [] /\ first_max key_time ds b) \/
        (ds = [] /\ bs = [b]))) \/
      (BrowserFinderOptions.browser_type options = Some "any" /\
       first_min (type_index (declared_types backend options)) bs b) \/
      (exists t, BrowserFinderOptions.browser_type options = Some t /\
                 t <> "any" /\ b ∈ bs /\ matches options t b)
  | inr None =>
      bs = [] \/
      (exists t, BrowserFinderOptions.browser_type options = Some t /\
                 t <> "any" /\ forall b, b ∈ bs -> ~ matches options t b)
  | inl ValueError =>
      BrowserFinderOptions.browser_type options = Some "any" /\
      exists b, b ∈ bs /\
                PossibleBrowser.browser_type b
                ∉ declared_types backend options
  | inl (BrowserTypeRequiredException _) =>
      BrowserFinderOptions.browser_type options = None /\ ds = [] /\
      (2 <= length bs)%nat
  | inl (BrowserFinderException _) => False
  end.
Proof.
  destruct bs as [|b0 bs'] eqn:Hbs; [rewrite Resolve_nil; by left|].
  rewrite <- Hbs. assert (bs <> []) as Hne by (by rewrite Hbs).
  destruct (BrowserFinderOptions.browser_type options) as [t|] eqn:Hbt.
  - destruct (decide (t = "any")) as [->|Hany].
    + destruct (decide (Forall (fun b => PossibleBrowser.browser_type b
                  ∈ declared_types backend options) bs)) as [Hall|Hnot].
      * destruct (Resolve_any backend options bs ds Hbt Hne) as (b & Hb & ->).
        { intros b Hb. by apply (proj1 (Forall_forall _ _) Hall). }
        cbn [snd]. right. left. done.
      * apply not_Forall_Exists in Hnot; [|apply _].
        apply Exists_exists in Hnot as (b & Hb & Hnb).
        rewrite (Resolve_any_unknown_type backend options bs ds Hbt).
        { cbn [snd]. split; [done|]. by exists b. }
        exists b. split; [done|]. by apply list_index_None.
    + destruct (Resolve_explicit backend options t bs ds Hbt Hany)
        as (matching & _ & Hmem & Hnil & Hcons).
      destruct matching as [|m ms].
      * rewrite Hnil; [|done]. cbn [snd]. right. exists t.
        split; [done|]. split; [done|]. intros b Hb Hm.
        assert (b ∈ @nil Browser) as H by (by apply Hmem).
        by apply elem_of_nil in H.
      * destruct Hcons as (b & Hmax & ->); [done|]. cbn [snd].
        apply first_max_elem, Hmem in Hmax as [Hin Hm].
        right. right. exists t. split; [done|]. split; [done|].
        split; done.
  - destruct ds as [|d0 ds'] eqn:Hds.
    + destruct bs' as [|b1 bs''].
      * rewrite Hbs, Resolve_single by done. cbn [snd]. left. by auto.
      * rewrite Resolve_type_required; [|done|rewrite Hbs; simpl; lia].
        cbn [snd]. rewrite Hbs. simpl. repeat split; try done. lia.
    + rewrite <- Hds. assert (ds <> []) as Hdne by (by rewrite Hds).
      destruct (Resolve_default backend options bs ds Hbt Hne Hdne)
        as (b & Hmax & ->).
      cbn [snd]. left. split; [done|]. left. done.
Qed.

(** X5.  [FindBrowser] raises [ValueError] exactly when the
    configuration is accepted and is not the test double, "any" is
    requested and some aggregated candidate has a type that no backend
    declares; the lookup of the type's index fails before any hook
    runs. *)
Theorem FindBrowser_ValueError_iff (options : Options) :
  (exists tr, FindBrowser backend GetDevicesMatchingOptions options
              = (tr, inl ValueError))
  <->
  ~ is_fake options /\ ~ rejected options /\
  BrowserFinderOptions.browser_type options = Some "any" /\
  exists b,
    b ∈ aggregated_browsers backend GetDevicesMatchingOptions options /\
    PossibleBrowser.browser_type b ∉ declared_types backend options.
Proof.
  split.
  - intros [tr Hrun].
    destruct (FindBrowser_cases options)
      as [[_ Hc]|[(_ & _ & msg & Hc)|(Hfake & Hacc & Hc)]];
      rewrite Hc in Hrun; try discriminate.
    injection Hrun as _ Hr.
    pose proof (Resolve_outcome options
      (aggregated_browsers backend GetDevicesMatchingOptions options)
      (aggregated_defaults backend GetDevicesMatchingOptions options)) as Ho.
    rewrite Hr in Ho. destruct Ho as [Hbt Hb]. done.
  - intros (Hfake & Hacc & Hbt & b & Hb & Hnot).
    rewrite (FindBrowser_eq options Hfake Hacc).
    rewrite (Resolve_any_unknown_type backend options _ _ Hbt).
    + eexists. reflexivity.
    + exists b. split; [done|]. by apply list_index_None.
Qed.

(** X6.  [FindBrowser] raises [BrowserTypeRequiredException] exactly
    when the configuration is accepted and is not the test double, no
    type is requested, no backend named a default and two or more
    candidates were aggregated.  A run with a requested type never
    raises it. *)
Theorem FindBrowser_type_required_iff (options : Options) :
  (exists tr msg, FindBrowser backend GetDevicesMatchingOptions options
                  = (tr, inl (BrowserTypeRequiredException msg)))
  <->
  ~ is_fake options /\ ~ rejected options /\
  BrowserFinderOptions.browser_type options = None /\
  aggregated_defaults backend GetDevicesMatchingOptions options = [] /\
  (2 <= length
          (aggregated_browsers backend GetDevicesMatchingOptions options))%nat.
Proof.
  split.
  - intros (tr & msg & Hrun).
    destruct (FindBrowser_cases options)
      as [[_ Hc]|[(_ & _ & msg' & Hc)|(Hfake & Hacc & Hc)]];
      rewrite Hc in Hrun; try discriminate.
    injection Hrun as _ Hr.
    pose proof (Resolve_outcome options
      (aggregated_browsers backend GetDevicesMatchingOptions options)
      (aggregated_defaults backend GetDevicesMatchingOptions options)) as Ho.
    rewrite Hr in Ho. destruct Ho as (Hbt & Hds & Hlen). done.
  - intros (Hfake & Hacc & Hbt & Hds & Hlen).
    rewrite (FindBrowser_eq options Hfake Hacc), Hds.
    rewrite (Resolve_type_required backend options _ Hbt Hlen).
    eexists _, _. reflexivity.
Qed.

(** X7.  On a configuration that is not the test double, [FindBrowser]
    returns [None] exactly when the configuration is accepted and either
    nothing was aggregated, or a type other than "any" is requested and
    no aggregated candidate has that type and supports the options.
    With no type or with "any", candidates never lead to [None]. *)
Theorem FindBrowser_None_iff (options : Options) :
  ~ is_fake options ->
  (exists tr, FindBrowser backend GetDevicesMatchingOptions options
              = (tr, inr None))
  <->
  ~ rejected options /\
  (aggregated_browsers backend GetDevicesMatchingOptions options = [] \/
   exists t, BrowserFinderOptions.browser_type options = Some t /\
     t <> "any" /\
     forall b,
       b ∈ aggregated_browsers backend GetDevicesMatchingOptions options ->
       ~ matches options t b).
Proof.
  intros Hfake. split.
  - intros [tr Hrun].
    destruct (FindBrowser_cases options)
      as [[Hf _]|[(_ & _ & msg & Hc)|(_ & Hacc & Hc)]]; [done| |];
      rewrite Hc in Hrun; try discriminate.
    injection Hrun as _ Hr. split; [done|].
    pose proof (Resolve_outcome options
      (aggregated_browsers backend GetDevicesMatchingOptions options)
      (aggregated_defaults backend GetDevicesMatchingOptions options)) as Ho.
    by rewrite Hr in Ho.
  - intros (Hacc & Hcase).
    rewrite (FindBrowser_eq options Hfake Hacc).
    destruct Hcase as [->|(t & Hbt & Hany & Hno)].
    + rewrite Resolve_nil. eexists. reflexivity.
    + destruct (Resolve_explicit backend options t
        (aggregated_browsers backend GetDevicesMatchingOptions options)
        (aggregated_defaults backend GetDevicesMatchingOptions options)
        Hbt Hany) as (matching & _ & Hmem & Hnil & _).
      rewrite Hnil; [eexists; reflexivity|].
      destruct matching as [|m ms]; [done|].
      assert (m ∈ m :: ms) as Hm by (by left).
      apply Hmem in Hm as [Hm1 Hm2]. by destruct (Hno m).
Qed.

(** X8.  A candidate that [FindBrowser] returns on a configuration that
    is not the test double comes from the backends: some backend found
    it on a matching device, or named it as its default for what it
    found there.  When a type other than "any" is requested, it was
    found, has that type and supports the options. *)
Theorem FindBrowser_result_provenance (options : Options)
  (tr : list Ev) (b : Browser) :
  ~ is_fake options ->
  FindBrowser backend GetDevicesMatchingOptions options
  = (tr, inr (Some b)) ->
  (exists device finder,
     device ∈ GetDevicesMatchingOptions options /\
     (b ∈ Backend.FindAllAvailableBrowsers (backend finder) options device \/
      Backend.SelectDefaultBrowser (backend finder)
        (Backend.FindAllAvailableBrowsers (backend finder) options device)
      = Some b)) /\
  (forall t, BrowserFinderOptions.browser_type options = Some t ->
     t <> "any" ->
     matches options t b /\
     exists device finder,
       device ∈ GetDevicesMatchingOptions options /\
       b ∈ Backend.FindAllAvailableBrowsers (backend finder) options device).
Proof.
  intros Hfake Hrun.
  destruct (FindBrowser_cases options)
    as [[Hf _]|[(_ & _ & msg & Hc)|(_ & Hacc & Hc)]]; [done| |];
    rewrite Hc in Hrun; try discriminate.
  injection Hrun as _ Hr.
  pose proof (Resolve_outcome options
    (aggregated_browsers backend GetDevicesMatchingOptions options)
    (aggregated_defaults backend GetDevicesMatchingOptions options)) as Ho.
  rewrite Hr in Ho.
  assert (forall c,
    c ∈ aggregated_browsers backend GetDevicesMatchingOptions options ->
    exists device finder,
      device ∈ GetDevicesMatchingOptions options /\
      c ∈ Backend.FindAllAvailableBrowsers (backend finder) options device)
    as Hfound.
  { intros c Hc'. apply aggregated_browsers_spec in Hc'
      as (d & f & Hd & _ & Hc'). by exists d, f. }
  split.
  - destruct Ho as [[Hbt [(Hds & _ & Hmax)|(Hds & Hbs)]]
                   |[[Hbt Hmin]|(t & Hbt & Hany & Hb & Hm)]].
    + apply first_max_elem, aggregated_defaults_spec in Hmax
        as (d & f & Hd & _ & Hsel).
      exists d, f. split; [done|]. by right.
    + destruct (Hfound b) as (d & f & Hd & Hb); [rewrite Hbs; by left|].
      exists d, f. split; [done|]. by left.
    + apply first_min_elem, Hfound in Hmin as (d & f & Hd & Hb).
      exists d, f. split; [done|]. by left.
    + apply Hfound in Hb as (d & f & Hd & Hb).
      exists d, f. split; [done|]. by left.
  - intros t Hbt Hany.
    destruct Ho as [[Hbt' _]|[[Hbt' _]|(t' & Hbt' & _ & Hb & Hm)]];
      try congruence.
    assert (t' = t) as -> by congruence. split; [done|]. by apply Hfound.
Qed.

(** An element of a prefix of the list has its index in the prefix. *)
Lemma list_index_prefix (x : string) (l l' : list string) (n : nat) :
  x ∈ l -> list_index x (l ++ l') = Some n -> (n < length l)%nat.
Proof.
  intros Hx Hn. apply list_index_spec in Hn as [_ Hmin].
  apply list_elem_of_lookup_1 in Hx as [j Hj].
  destruct (Nat.lt_ge_cases n (length l)) as [?|Hge]; [done|].
  exfalso. apply (Hmin j).
  - apply lookup_lt_Some in Hj. lia.
  - by apply lookup_app_l_Some.
Qed.

(** X9.  With "any" and every aggregated type declared, a candidate of
    a type the desktop finder declares, if there is one, wins over the
    candidates of types only the other backends declare: the candidate
    returned has a type of the desktop finder. *)
Theorem FindBrowser_any_prefers_desktop (options : Options) :
  ~ is_fake options -> ~ rejected options ->
  BrowserFinderOptions.browser_type options = Some "any" ->
  (forall b,
     b ∈ aggregated_browsers backend GetDevicesMatchingOptions options ->
     PossibleBrowser.browser_type b ∈ declared_types backend options) ->
  (exists c,
     c ∈ aggregated_browsers backend GetDevicesMatchingOptions options /\
     PossibleBrowser.browser_type c
     ∈ Backend.FindAllBrowserTypes (backend desktop_browser_finder) options) ->
  exists tr b,
    FindBrowser backend GetDevicesMatchingOptions options
    = (tr, inr (Some b)) /\
    b ∈ aggregated_browsers backend GetDevicesMatchingOptions options /\
    PossibleBrowser.browser_type b
    ∈ Backend.FindAllBrowserTypes (backend desktop_browser_finder) options.
Proof.
  intros Hfake Hacc Hbt Hall (c & Hc & Hcd).
  rewrite (FindBrowser_eq options Hfake Hacc).
  set (bs := aggregated_browsers backend GetDevicesMatchingOptions options)
    in *.
  destruct (Resolve_any backend options bs
              (aggregated_defaults backend GetDevicesMatchingOptions options)
              Hbt) as (b & Hmin & ->).
  { intros Hnil. rewrite Hnil in Hc. by apply elem_of_nil in Hc. }
  { done. }
  eexists _, b. split; [reflexivity|].
  split; [by apply first_min_elem in Hmin|].
  destruct Hmin as (kb & l1 & l2 & Hbs & Hkb & Hpre & Hpost).
  assert (exists kc, type_index (declared_types backend options) c = Some kc
                     /\ (kb <= kc)%nat) as (kc & Hkc & Hle).
  { rewrite Hbs in Hc. apply elem_of_app in Hc as [Hc|Hc].
    - destruct (Hpre c Hc) as (kc & ? & ?). exists kc. split; [done|lia].
    - apply elem_of_cons in Hc as [->|Hc].
      + exists kb. split; [done|lia].
      + destruct (Hpost c Hc) as (kc & ? & ?). by exists kc. }
  unfold type_index, declared_types in Hkc, Hkb.
  pose proof (list_index_prefix _ _ _ _ Hcd Hkc) as Hlt.
  apply list_index_spec in Hkb as [Hkb _].
  rewrite lookup_app_l in Hkb by lia.
  by eapply list_elem_of_lookup_2.
Qed.

(** ** [GetAllAvailableBrowsers] and [GetAllAvailableBrowserTypes] *)

(** The run of [GetAllAvailableBrowsers] on one device. *)
Lemma GetAllAvailableBrowsers_run (options : Options)
  (device : option Device) :
  GetAllAvailableBrowsers backend options device
  = (device_calls device,
     inr match device with
         | None => []
         | Some _ =>
           flat_map (found_by backend options device) BROWSER_FINDERS
         end).
Proof.
  destruct device as [d|]; [|done].
  unfold GetAllAvailableBrowsers, call_FindAllAvailableBrowsers, found_by.
  simpl. by rewrite app_nil_r, <- app_assoc.
Qed.

Lemma possible_browsers_run (options : Options)
  (devices : list (option Device)) (acc : list Browser) :
  for_each devices
    (fun possible_browsers device =>
       do bs <- GetAllAvailableBrowsers backend options device;
       ret (possible_browsers ++ bs)) acc
  = (flat_map device_calls devices,
     inr (acc ++
       flat_map (fun device =>
         match device with
         | None => []
         | Some _ =>
           flat_map (found_by backend options device) BROWSER_FINDERS
         end) devices)).
Proof.
  revert acc. induction devices as [|d devices IH]; intros acc.
  - simpl. by rewrite app_nil_r.
  - cbn [for_each flat_map]. unfold bind at 1. unfold bind at 1.
    rewrite GetAllAvailableBrowsers_run. cbn [ret]. rewrite app_nil_r.
    rewrite IH. by rewrite <- app_assoc.
Qed.

(** The run of [GetAllAvailableBrowserTypes]. *)
Lemma GetAllAvailableBrowserTypes_eq (options : Options) :
  let possible :=
    flat_map (fun device =>
      match device with
      | None => []
      | Some _ =>
        flat_map (found_by backend options device) BROWSER_FINDERS
      end) (GetDevicesMatchingOptions options) in
  GetAllAvailableBrowserTypes backend GetDevicesMatchingOptions options
  = (GetDevicesMatchingOptions_call
       :: flat_map device_calls (GetDevicesMatchingOptions options),
     inr (merge_sort str_le
            (elements
               (add_reference possible
                  (list_to_set (map PossibleBrowser.browser_type possible)
                   : gset string))))).
Proof.
  intros possible.
  pose proof (possible_browsers_run options
                (GetDevicesMatchingOptions options) []) as Hrun.
  unfold GetAllAvailableBrowserTypes, call_GetDevicesMatchingOptions.
  simpl in Hrun. simpl. unfold bind at 1. rewrite Hrun. simpl.
  by rewrite app_nil_r.
Qed.

Lemma possible_discovered (options : Options) (b : Browser) :
  b ∈ flat_map (fun device =>
        match device with
        | None => []
        | Some _ =>
          flat_map (found_by backend options device) BROWSER_FINDERS
        end) (GetDevicesMatchingOptions options)
  <-> discovered backend GetDevicesMatchingOptions options b.
Proof. apply possible_browsers_discovered. Qed.

(** The members of the list [GetAllAvailableBrowserTypes] returns. *)
Lemma available_types_member (options : Options) (t : string) :
  let possible :=
    flat_map (fun device =>
      match device with
      | None => []
      | Some _ =>
        flat_map (found_by backend options device) BROWSER_FINDERS
      end) (GetDevicesMatchingOptions options) in
  t ∈ merge_sort str_le
        (elements
           (add_reference possible
              (list_to_set (map PossibleBrowser.browser_type possible)
               : gset string)))
  <-> (exists b, discovered backend GetDevicesMatchingOptions options b /\
                 PossibleBrowser.browser_type b = t) \/
      (t = "reference" /\
       exists b, discovered backend GetDevicesMatchingOptions options b /\
                 desktop_os b).
Proof.
  intros possible.
  destruct (sorted_elements_spec
    (add_reference possible
       (list_to_set (map PossibleBrowser.browser_type possible)
        : gset string))) as (_ & _ & Hm).
  rewrite Hm, add_reference_spec, elem_of_list_to_set, list_elem_of_fmap.
  split.
  - intros [(b & Ht & Hb)|(-> & b & Hb & Hos)]; [left|right].
    + exists b. split; [by apply possible_discovered|done].
    + split; [done|]. exists b. split; [by apply possible_discovered|done].
  - intros [(b & Hb & Ht)|(-> & b & Hb & Hos)]; [left|right].
    + exists b. split; [done|by apply possible_discovered].
    + split; [done|]. exists b. split; [by apply possible_discovered|done].
Qed.

(** X10.  When no type or "any" is requested and no matching device is
    [None], the candidates [FindBrowser] aggregates are, device by
    device, the lists [GetAllAvailableBrowsers] returns: every backend
    is asked on every device, none is passed over. *)
Theorem FindBrowser_candidates_are_GetAllAvailableBrowsers
  (options : Options) :
  type_is_explicit options = false ->
  None ∉ GetDevicesMatchingOptions options ->
  exists (tr : list Ev) (per_device : option Device -> list Browser)
         (ds : list Browser),
    Aggregate backend GetDevicesMatchingOptions options
    = (tr, inr (flat_map per_device (GetDevicesMatchingOptions options), ds))
    /\
    forall device, device ∈ GetDevicesMatchingOptions options ->
      GetAllAvailableBrowsers backend options device
      = (map (fun finder => FindAllAvailableBrowsers_call finder device)
           BROWSER_FINDERS,
         inr (per_device device)).
Proof.
  intros Hexp Hnone.
  exists (GetDevicesMatchingOptions_call
            :: aggregate_calls backend GetDevicesMatchingOptions options),
    (fun device => flat_map (found_by backend options device) BROWSER_FINDERS),
    (aggregated_defaults backend GetDevicesMatchingOptions options).
  split.
  - rewrite Aggregate_eq. unfold aggregated_browsers.
    assert (asked_finders backend options BROWSER_FINDERS = BROWSER_FINDERS)
      as ->; [|done].
    unfold asked_finders, finder_skipped. rewrite Hexp. reflexivity.
  - intros [d|] Hd; [|done]. by rewrite GetAllAvailableBrowsers_run.
Qed.

(** X12.  The list [GetAllAvailableBrowserTypes] returns is empty
    exactly when no backend finds a candidate on a matching device that
    is not [None]; in particular it is empty when the only matching
    device is [None]. *)
Theorem GetAllAvailableBrowserTypes_empty_iff (options : Options) :
  (exists tr,
     GetAllAvailableBrowserTypes backend GetDevicesMatchingOptions options
     = (tr, inr []))
  <-> forall b, ~ discovered backend GetDevicesMatchingOptions options b.
Proof.
  rewrite GetAllAvailableBrowserTypes_eq.
  set (types := merge_sort _ _).
  assert (forall t, t ∈ types <->
    (exists b, discovered backend GetDevicesMatchingOptions options b /\
               PossibleBrowser.browser_type b = t) \/
    (t = "reference" /\
     exists b, discovered backend GetDevicesMatchingOptions options b /\
               desktop_os b)) as Hmem
    by (intros t; apply available_types_member).
  split.
  - intros [tr Hrun] b Hb. injection Hrun as _ Hnil.
    assert (PossibleBrowser.browser_type b ∈ types) as Hin
      by (apply Hmem; left; by exists b).
    rewrite Hnil in Hin. by apply elem_of_nil in Hin.
  - intros Hno. destruct types as [|t ts] eqn:Ht; [by eexists|].
    exfalso.
    assert (t ∈ t :: ts) as Hin by (by left).
    apply Hmem in Hin as [(b & Hb & _)|(_ & b & Hb & _)]; by apply (Hno b).
Qed.

(** X13.  When no matching device is [None] and the backends name their
    defaults among the candidates they found, the type of a candidate
    that [FindBrowser] returns on a configuration that is not the test
    double is in the list [GetAllAvailableBrowserTypes] returns. *)
Theorem FindBrowser_type_is_available (options : Options)
  (tr : list Ev) (b : Browser) :
  ~ is_fake options ->
  None ∉ GetDevicesMatchingOptions options ->
  defaults_among_candidates backend ->
  FindBrowser backend GetDevicesMatchingOptions options
  = (tr, inr (Some b)) ->
  exists tr' types,
    GetAllAvailableBrowserTypes backend GetDevicesMatchingOptions options
    = (tr', inr types) /\
    PossibleBrowser.browser_type b ∈ types.
Proof.
  intros Hfake Hnone Hamong Hrun.
  rewrite GetAllAvailableBrowserTypes_eq. eexists _, _.
  split; [reflexivity|].
  apply available_types_member. left. exists b. split; [|done].
  destruct (FindBrowser_cases options)
    as [[Hf _]|[(_ & _ & msg & Hc)|(_ & Hacc & Hc)]]; [done| |];
    rewrite Hc in Hrun; try discriminate.
  injection Hrun as _ Hr.
  pose proof (Resolve_outcome options
    (aggregated_browsers backend GetDevicesMatchingOptions options)
    (aggregated_defaults backend GetDevicesMatchingOptions options)) as Ho.
  rewrite Hr in Ho.
  assert (forall c device finder,
    device ∈ GetDevicesMatchingOptions options ->
    c ∈ found_by backend options device finder ->
    discovered backend GetDevicesMatchingOptions options c) as Hdisc.
  { intros c [d|] f Hd Hc'; [|done]. by exists d, f. }
  assert (forall c,
    c ∈ aggregated_browsers backend GetDevicesMatchingOptions options ->
    discovered backend GetDevicesMatchingOptions options c) as Hfound.
  { intros c Hc'. apply aggregated_browsers_spec in Hc'
      as (d & f & Hd & _ & Hc'). by apply (Hdisc c d f). }
  destruct Ho as [[Hbt [(Hds & _ & Hmax)|(Hds & Hbs)]]
                 |[[Hbt Hmin]|(t & Hbt & Hany & Hb & Hm)]].
  - apply first_max_elem, aggregated_defaults_spec in Hmax
      as (d & f & Hd & _ & Hsel).
    apply Hamong in Hsel. by apply (Hdisc b d f).
  - apply Hfound. rewrite Hbs. by left.
  - by apply Hfound, (first_min_elem _ _ _ Hmin).
  - by apply Hfound.
Qed.

(** X14.  The message of the [BrowserFinderException] that [FindBrowser]
    raises on a configuration that is not the test double.  The checks
    on [browser_executable] come first: a configuration that breaks one
    of them gets its message even when [cros_remote] is wrong too. *)
Theorem FindBrowser_error_message (options : Options) :
  let browser_type := BrowserFinderOptions.browser_type options in
  let browser_executable := BrowserFinderOptions.browser_executable options in
  let cros_remote := BrowserFinderOptions.cros_remote options in
  ~ is_fake options ->
  (browser_type = Some "exact" -> browser_executable = None ->
   FindBrowser backend GetDevicesMatchingOptions options
   = ([], inl (BrowserFinderException msg_exact_requires_executable))) /\
  (browser_type <> Some "exact" -> browser_executable <> None ->
   FindBrowser backend GetDevicesMatchingOptions options
   = ([], inl (BrowserFinderException msg_executable_requires_exact))) /\
  (browser_type = Some "cros-chrome" -> browser_executable = None ->
   cros_remote = None ->
   FindBrowser backend GetDevicesMatchingOptions options
   = ([], inl (BrowserFinderException msg_cros_requires_remote))) /\
  ((browser_type = Some "exact" <-> browser_executable <> None) ->
   browser_type <> Some "cros-chrome" ->
   browser_type <> Some "cros-chrome-guest" -> cros_remote <> None ->
   FindBrowser backend GetDevicesMatchingOptions options
   = ([], inl (BrowserFinderException msg_remote_requires_cros))).
Proof.
  intros browser_type browser_executable cros_remote Hfake.
  unfold FindBrowser. rewrite (not_fake_eqb _ Hfake).
  unfold check_options. fold browser_type browser_executable cros_remote.
  destruct (opt_is browser_type "exact") eqn:E1;
    destruct (is_set browser_executable) eqn:E2;
    destruct (opt_is browser_type "cros-chrome") eqn:E3;
    destruct (is_set cros_remote) eqn:E4;
    destruct (opt_is browser_type "cros-chrome-guest") eqn:E5;
    bool_hyps; cbn [andb negb bind raise];
    repeat split; intros; first [reflexivity | congruence | tauto |
      exfalso; intuition congruence].
Qed.

(** X15.  [FindAllBrowserTypes] never raises, whatever the
    configuration, and only asks each backend once for its types, in
    the order of [BROWSER_FINDERS]: no device is enumerated, no
    candidate is looked for.  A type is in the list exactly when some
    backend declares it, and a type declared by several backends occurs
    as often as it is declared. *)
Theorem FindAllBrowserTypes_run (options : Options) :
  exists types,
    FindAllBrowserTypes backend options
    = (map FindAllBrowserTypes_call BROWSER_FINDERS, inr types) /\
    (forall t, t ∈ types <->
       exists finder,
         t ∈ Backend.FindAllBrowserTypes (backend finder) options) /\
    (forall t, count_occ string_dec types t
       = list_sum (map (fun finder =>
           count_occ string_dec
             (Backend.FindAllBrowserTypes (backend finder) options) t)
           BROWSER_FINDERS)).
Proof.
  eexists. split; [apply FindAllBrowserTypes_eq|]. split.
  - intros t. rewrite !elem_of_app. split.
    + intros [?|[?|?]]; eauto.
    + intros [[] ?]; auto.
  - intros t. rewrite !count_occ_app. simpl. lia.
Qed.

End Aggregation.

(** * The further properties on the sample configurations *)

Ltac not_fake := unfold is_fake; simpl; discriminate.

Lemma FindBrowser_skips_undeclaring_backend_witness :
  let o := options (Some "debug") None None in
  let ev : Event unit nat :=
    FindAllAvailableBrowsers_call desktop_browser_finder (Some 0%nat) in
  ev ∈ (FindBrowser two_defaults devices_0_1 o).1 /\
  (forall device,
     ev <> FindAllAvailableBrowsers_call android_browser_finder device) /\
  ev <> SelectDefaultBrowser_call android_browser_finder.
Proof.
  assert (FindAllAvailableBrowsers_call desktop_browser_finder (Some 0%nat)
          ∈ (FindBrowser two_defaults devices_0_1
               (options (Some "debug") None None)).1) as Hin.
  { apply list_elem_of_In. simpl. tauto. }
  split; [exact Hin|].
  apply (FindBrowser_skips_undeclaring_backend two_defaults devices_0_1
           (options (Some "debug") None None) "debug"
           android_browser_finder).
  - reflexivity.
  - discriminate.
  - discriminate.
  - intros H. apply list_elem_of_In in H. simpl in H.
    intuition discriminate.
  - exact Hin.
Defined.

Lemma FindBrowser_asks_once_per_device_witness :
  let o := options None None None in
  discovery_calls desktop_browser_finder
    (FindBrowser two_defaults devices_0_1 o).1 = length (devices_0_1 o) /\
  select_calls desktop_browser_finder
    (FindBrowser two_defaults devices_0_1 o).1 = length (devices_0_1 o).
Proof.
  apply (FindBrowser_asks_once_per_device two_defaults devices_0_1
           (options None None None) desktop_browser_finder).
  - not_fake.
  - not_rejected.
  - reflexivity.
Defined.

Lemma FindBrowser_nothing_found_witness :
  let o := options (Some "any") None None in
  FindBrowser two_defaults devices_none o
  = (GetDevicesMatchingOptions_call
       :: aggregate_calls two_defaults devices_none o, inr None).
Proof.
  apply (FindBrowser_nothing_found two_defaults devices_none
           (options (Some "any") None None)).
  - not_fake.
  - not_rejected.
  - intros device finder H. by apply elem_of_nil in H.
Defined.

(** A desktop build of a type the desktop finder does not declare makes
    "any" fail. *)
Lemma FindBrowser_ValueError_iff_witness :
  exists tr,
    FindBrowser undeclared_type devices_0 (options (Some "any") None None)
    = (tr, inl ValueError).
Proof.
  apply (proj2 (FindBrowser_ValueError_iff undeclared_type devices_0
                  (options (Some "any") None None))).
  split; [not_fake|]. split; [not_rejected|]. split; [reflexivity|].
  exists nightly. split.
  - apply list_elem_of_In. simpl. tauto.
  - intros H. apply list_elem_of_In in H. simpl in H.
    intuition discriminate.
Defined.

Lemma FindBrowser_type_required_iff_witness :
  exists tr msg,
    FindBrowser no_defaults devices_0_1 (options None None None)
    = (tr, inl (BrowserTypeRequiredException msg)).
Proof.
  apply (proj2 (FindBrowser_type_required_iff no_defaults devices_0_1
                  (options None None None))).
  split; [not_fake|]. split; [not_rejected|]. split; [reflexivity|].
  split; [reflexivity|]. simpl. lia.
Defined.

Lemma FindBrowser_None_iff_witness :
  let o := options (Some "canary") None None in
  (exists tr, FindBrowser desktop_only devices_0 o = (tr, inr None))
  <->
  ~ rejected o /\
  (aggregated_browsers desktop_only devices_0 o = [] \/
   exists t, BrowserFinderOptions.browser_type o = Some t /\
     t <> "any" /\
     forall b, b ∈ aggregated_browsers desktop_only devices_0 o ->
               ~ matches o t b).
Proof.
  apply (FindBrowser_None_iff desktop_only devices_0
           (options (Some "canary") None None)).
  not_fake.
Defined.

Lemma FindBrowser_result_provenance_witness :
  let o := options None None None in
  (exists device finder,
     device ∈ devices_0_1 o /\
     (android_chromium
      ∈ Backend.FindAllAvailableBrowsers (two_defaults finder) o device \/
      Backend.SelectDefaultBrowser (two_defaults finder)
        (Backend.FindAllAvailableBrowsers (two_defaults finder) o device)
      = Some android_chromium)) /\
  (forall t, BrowserFinderOptions.browser_type o = Some t ->
     t <> "any" ->
     matches o t android_chromium /\
     exists device finder,
       device ∈ devices_0_1 o /\
       android_chromium
       ∈ Backend.FindAllAvailableBrowsers (two_defaults finder) o device).
Proof.
  apply (FindBrowser_result_provenance two_defaults devices_0_1
           (options None None None)
           (FindBrowser two_defaults devices_0_1 (options None None None)).1
           android_chromium).
  - not_fake.
  - reflexivity.
Defined.

(** The phone is seen first, the desktop build is chosen. *)
Lemma FindBrowser_any_prefers_desktop_witness :
  let o := options (Some "any") None None in
  exists tr b,
    FindBrowser phone_first devices_0_1 o = (tr, inr (Some b)) /\
    b ∈ aggregated_browsers phone_first devices_0_1 o /\
    PossibleBrowser.browser_type b
    ∈ Backend.FindAllBrowserTypes (phone_first desktop_browser_finder) o.
Proof.
  apply (FindBrowser_any_prefers_desktop phone_first devices_0_1
           (options (Some "any") None None)).
  - not_fake.
  - not_rejected.
  - reflexivity.
  - intros b Hb. apply list_elem_of_In in Hb. simpl in Hb.
    apply str_in_spec.
    destruct Hb as [<-|[<-|[]]]; reflexivity.
  - exists release. split.
    + apply list_elem_of_In. simpl. tauto.
    + apply str_in_spec. reflexivity.
Defined.

Example any_prefers_desktop_sample :
  aggregated_browsers phone_first devices_0_1 (options (Some "any") None None)
  = [android_chromium; release] /\
  (FindBrowser phone_first devices_0_1 (options (Some "any") None None)).2
  = inr (Some release).
Proof. split; reflexivity. Qed.

Lemma FindBrowser_candidates_are_GetAllAvailableBrowsers_witness :
  let o := options None None None in
  exists (tr : list (Event unit nat))
         (per_device : option nat -> list Browser) (ds : list Browser),
    Aggregate two_defaults devices_0_1 o
    = (tr, inr (flat_map per_device (devices_0_1 o), ds)) /\
    forall device, device ∈ devices_0_1 o ->
      GetAllAvailableBrowsers two_defaults o device
      = (map (fun finder => FindAllAvailableBrowsers_call finder device)
           BROWSER_FINDERS,
         inr (per_device device)).
Proof.
  apply (FindBrowser_candidates_are_GetAllAvailableBrowsers
           two_defaults devices_0_1 (options None None None)).
  - reflexivity.
  - intros H. apply list_elem_of_In in H. simpl in H.
    intuition discriminate.
Defined.

(** A matching device that is [None]: [FindBrowser] asks the backends
    with it, [GetAllAvailableBrowserTypes] leaves it out. *)
Example None_device_sample :
  let world : BrowserFinderModule -> Backend.t unit nat :=
    backends (fun _ => [release]) (fun _ => []) no_default in
  let devices (_ : Options) : list (option nat) := [None] in
  (FindBrowser world devices (options None None None)).2
  = inr (Some release) /\
  GetAllAvailableBrowserTypes world devices (options None None None)
  = ([GetDevicesMatchingOptions_call], inr []).
Proof. split; reflexivity. Qed.

Lemma GetAllAvailableBrowserTypes_empty_iff_witness :
  exists tr,
    GetAllAvailableBrowserTypes two_defaults devices_none
      (options None None None) = (tr, inr []).
Proof.
  apply (proj2 (GetAllAvailableBrowserTypes_empty_iff two_defaults
                  devices_none (options None None None))).
  intros b (d & f & Hd & _). by apply elem_of_nil in Hd.
Defined.

Lemma FindBrowser_type_is_available_witness :
  let o := options None None None in
  exists tr' types,
    GetAllAvailableBrowserTypes no_defaults devices_0 o = (tr', inr types) /\
    PossibleBrowser.browser_type release ∈ types.
Proof.
  apply (FindBrowser_type_is_available no_defaults devices_0
           (options None None None)
           (FindBrowser no_defaults devices_0 (options None None None)).1
           release).
  - not_fake.
  - intros H. apply list_elem_of_In in H. simpl in H.
    intuition discriminate.
  - intros [] l d H; simpl in H; discriminate.
  - reflexivity.
Defined.

Lemma FindBrowser_error_message_witness :
  let o := options None (Some "/opt/chrome") (Some "10.0.0.1") in
  let browser_type := BrowserFinderOptions.browser_type o in
  let browser_executable := BrowserFinderOptions.browser_executable o in
  let cros_remote := BrowserFinderOptions.cros_remote o in
  (browser_type = Some "exact" -> browser_executable = None ->
   FindBrowser two_defaults devices_0_1 o
   = ([], inl (BrowserFinderException msg_exact_requires_executable))) /\
  (browser_type <> Some "exact" -> browser_executable <> None ->
   FindBrowser two_defaults devices_0_1 o
   = ([], inl (BrowserFinderException msg_executable_requires_exact))) /\
  (browser_type = Some "cros-chrome" -> browser_executable = None ->
   cros_remote = None ->
   FindBrowser two_defaults devices_0_1 o
   = ([], inl (BrowserFinderException msg_cros_requires_remote))) /\
  ((browser_type = Some "exact" <-> browser_executable <> None) ->
   browser_type <> Some "cros-chrome" ->
   browser_type <> Some "cros-chrome-guest" -> cros_remote <> None ->
   FindBrowser two_defaults devices_0_1 o
   = ([], inl (BrowserFinderException msg_remote_requires_cros))).
Proof.
  apply (FindBrowser_error_message two_defaults devices_0_1
           (options None (Some "/opt/chrome") (Some "10.0.0.1"))).
  not_fake.
Defined.

(** An executable without "exact" and a remote without a ChromeOS type:
    the message is the one about the executable. *)
Example error_precedence_sample :
  FindBrowser two_defaults devices_0_1
    (options None (Some "/opt/chrome") (Some "10.0.0.1"))
  = ([], inl (BrowserFinderException msg_executable_requires_exact)).
Proof. reflexivity. Qed.

(** * [GetAllAvailableBrowserTypes] through the decorator *)

Section ThroughCache.
Context {BrowserOptions Device : Type}.

Abbreviation Options := (BrowserFinderOptions.t BrowserOptions).
Abbreviation Browser := (PossibleBrowser.t BrowserOptions).
Abbreviation Ev := (Event BrowserOptions Device).

Variable backend : BrowserFinderModule -> Backend.t BrowserOptions Device.
Variable GetDevicesMatchingOptions : Options -> list (option Device).
Variable cache_key : Options * option Device -> string.

(** One call through the decorator. *)
Lemma GetAllAvailableBrowsers_through_cache_eq
  (store : gmap string (list Browser)) (options : Options)
  (device : option Device) :
  GetAllAvailableBrowsers_through_cache backend cache_key store options device
  = match store !! cache_key (options, device) with
    | Some l => (store, ([], inr l))
    | None =>
      (<[cache_key (options, device) := candidates_on backend options device]>
         store,
       (device_calls device, inr (candidates_on backend options device)))
    end.
Proof.
  unfold GetAllAvailableBrowsers_through_cache, Cache. cbn [fst snd].
  destruct (store !! cache_key (options, device)); [done|].
  by rewrite GetAllAvailableBrowsers_run.
Qed.

(** The calls of the loop: one round for each device of a sublist of
    the devices, made of devices that were not in the store, with
    pairwise distinct keys, and covering every key that was not in the
    store. *)
Lemma possible_browsers_through_cache_calls (options : Options)
  (devices : list (option Device)) (store : gmap string (list Browser))
  (acc : list Browser) :
  exists store' run_devices possible,
    possible_browsers_through_cache backend cache_key options devices
      store acc
    = (store', (flat_map device_calls run_devices, inr possible)) /\
    sublist run_devices devices /\
    (forall device, device ∈ run_devices ->
       store !! cache_key (options, device) = None) /\
    NoDup (map (fun device => cache_key (options, device)) run_devices) /\
    (forall device, device ∈ devices ->
       store !! cache_key (options, device) = None ->
       exists device', device' ∈ run_devices /\
         cache_key (options, device') = cache_key (options, device)).
Proof.
  revert store acc. induction devices as [|d devices IH]; intros store acc.
  - exists store, [], acc. simpl. split; [done|]. split; [constructor|].
    split; [by intros ? ?%elem_of_nil|]. split; [constructor|].
    by intros ? ?%elem_of_nil.
  - cbn [possible_browsers_through_cache].
    rewrite GetAllAvailableBrowsers_through_cache_eq.
    destruct (store !! cache_key (options, d)) as [l|] eqn:Hl.
    + destruct (IH store (acc ++ l))
        as (store' & run & possible & Hrun & Hsub & Hmiss & Hnd & Hcov).
      exists store', run, possible. rewrite Hrun. cbn [app].
      split; [done|]. split; [by constructor|]. split; [done|].
      split; [done|]. intros x Hx Hnone.
      apply elem_of_cons in Hx as [->|Hx]; [congruence|]. by apply Hcov.
    + set (store1 := <[cache_key (options, d)
                       := candidates_on backend options d]> store).
      destruct (IH store1 (acc ++ candidates_on backend options d))
        as (store' & run & possible & Hrun & Hsub & Hmiss & Hnd & Hcov).
      exists store', (d :: run), possible. rewrite Hrun. cbn [flat_map].
      split; [done|]. split; [by constructor|].
      assert (forall x, x ∈ run ->
                cache_key (options, x) <> cache_key (options, d) /\
                store !! cache_key (options, x) = None) as Hrun'.
      { intros x Hx. specialize (Hmiss x Hx). unfold store1 in Hmiss.
        apply lookup_insert_None in Hmiss as [? ?]. by split. }
      split; [|split].
      * intros x Hx. apply elem_of_cons in Hx as [->|Hx]; [done|].
        by apply Hrun'.
      * cbn [map]. constructor; [|done].
        intros Hin. apply list_elem_of_fmap in Hin as (x & Hk & Hx).
        destruct (Hrun' x Hx) as [Hne _]. congruence.
      * intros x Hx Hnone. apply elem_of_cons in Hx as [->|Hx].
        { exists d. split; [by left|done]. }
        destruct (decide (cache_key (options, x) = cache_key (options, d)))
          as [Heq|Hne].
        { exists d. split; [by left|done]. }
        destruct (Hcov x Hx) as (x' & Hx' & Hk).
        { unfold store1. by rewrite lookup_insert_ne. }
        exists x'. split; [by right|done].
Qed.

(** The list the loop builds when the store holds only results of the
    body and equal keys stand for equal results. *)
Lemma possible_browsers_through_cache_value (options : Options)
  (devices : list (option Device)) (store : gmap string (list Browser))
  (acc : list Browser) :
  (forall device l, device ∈ devices ->
     store !! cache_key (options, device) = Some l ->
     l = candidates_on backend options device) ->
  (forall d d', d ∈ devices -> d' ∈ devices ->
     cache_key (options, d) = cache_key (options, d') ->
     candidates_on backend options d = candidates_on backend options d') ->
  exists store' tr,
    possible_browsers_through_cache backend cache_key options devices
      store acc
    = (store', (tr, inr (acc ++ flat_map (candidates_on backend options)
                                  devices))).
Proof.
  revert store acc. induction devices as [|d devices IH];
    intros store acc Hstore Hkeys.
  - exists store, []. simpl. by rewrite app_nil_r.
  - cbn [possible_browsers_through_cache].
    rewrite GetAllAvailableBrowsers_through_cache_eq.
    assert (forall x y, x ∈ devices -> y ∈ devices ->
              cache_key (options, x) = cache_key (options, y) ->
              candidates_on backend options x = candidates_on backend options y)
      as Hkeys' by (intros x y Hx Hy; apply Hkeys; by right).
    destruct (store !! cache_key (options, d)) as [l|] eqn:Hl.
    + rewrite (Hstore d l) by (done || by left).
      destruct (IH store (acc ++ candidates_on backend options d))
        as (store' & tr & Hrun); [|done|].
      { intros x l' Hx. apply Hstore. by right. }
      exists store', tr. rewrite Hrun. cbn [app flat_map].
      by rewrite app_assoc.
    + destruct (IH (<[cache_key (options, d)
                      := candidates_on backend options d]> store)
                  (acc ++ candidates_on backend options d))
        as (store' & tr & Hrun); [|done|].
      { intros x l' Hx Hl'.
        destruct (decide (cache_key (options, d) = cache_key (options, x)))
          as [Heq|Hne].
        - rewrite <- Heq, lookup_insert_eq in Hl'. injection Hl' as <-.
          apply Hkeys; [by left|by right|done].
        - rewrite lookup_insert_ne in Hl' by done.
          apply (Hstore x l'); [by right|done]. }
      exists store', (device_calls d ++ tr). rewrite Hrun.
      cbn [flat_map]. by rewrite app_assoc.
Qed.

(** X11.  With the call of line 161 going through the decorator of
    [GetAllAvailableBrowsers], [GetAllAvailableBrowserTypes] checks
    nothing and never raises, whatever the configuration and the store.
    It enumerates the devices once and first; every other call asks a
    backend for its candidates: one round over the backends, in the
    order of [BROWSER_FINDERS], for each device of a sublist of the
    matching devices, none for [None].  The devices of that sublist
    were not in the store, have pairwise distinct keys and cover every
    key that was not in the store: a device already in the store or
    repeated in the list costs no further call.  No backend is asked
    for its types or its default and no hook runs. *)
Theorem GetAllAvailableBrowserTypes_through_cache_calls
  (store : gmap string (list Browser)) (options : Options) :
  exists store' run_devices types,
    GetAllAvailableBrowserTypes_through_cache backend
      GetDevicesMatchingOptions cache_key store options
    = (store',
       (GetDevicesMatchingOptions_call
          :: flat_map (fun device =>
               match device with
               | None => []
               | Some _ =>
                 map (fun finder =>
                        FindAllAvailableBrowsers_call finder device)
                   BROWSER_FINDERS
               end) run_devices,
        inr types)) /\
    sublist run_devices (GetDevicesMatchingOptions options) /\
    (forall device, device ∈ run_devices ->
       store !! cache_key (options, device) = None) /\
    NoDup (map (fun device => cache_key (options, device)) run_devices) /\
    (forall device, device ∈ GetDevicesMatchingOptions options ->
       store !! cache_key (options, device) = None ->
       exists device', device' ∈ run_devices /\
         cache_key (options, device') = cache_key (options, device)).
Proof.
  unfold GetAllAvailableBrowserTypes_through_cache.
  destruct (possible_browsers_through_cache_calls options
              (GetDevicesMatchingOptions options) store [])
    as (store' & run & possible & Hrun & Hsub & Hmiss & Hnd & Hcov).
  rewrite Hrun. by eexists store', run, _.
Qed.

(** X16.  When the store of the decorator holds, for the matching
    devices, only lists that the body of [GetAllAvailableBrowsers]
    returns for them, and matching devices with equal keys get equal
    lists from the body, the list of types returned with the call of
    line 161 going through the decorator is the list returned with the
    body called directly. *)
Theorem GetAllAvailableBrowserTypes_through_cache_value
  (store : gmap string (list Browser)) (options : Options) :
  (forall device l, device ∈ GetDevicesMatchingOptions options ->
     store !! cache_key (options, device) = Some l ->
     (GetAllAvailableBrowsers backend options device).2 = inr l) ->
  (forall d d', d ∈ GetDevicesMatchingOptions options ->
     d' ∈ GetDevicesMatchingOptions options ->
     cache_key (options, d) = cache_key (options, d') ->
     (GetAllAvailableBrowsers backend options d).2
     = (GetAllAvailableBrowsers backend options d').2) ->
  (GetAllAvailableBrowserTypes_through_cache backend
     GetDevicesMatchingOptions cache_key store options).2.2
  = (GetAllAvailableBrowserTypes backend GetDevicesMatchingOptions
       options).2.
Proof.
  intros Hstore Hkeys.
  unfold GetAllAvailableBrowserTypes_through_cache.
  destruct (possible_browsers_through_cache_value options
              (GetDevicesMatchingOptions options) store [])
    as (store' & tr & Hrun).
  - intros device l Hd Hl. specialize (Hstore device l Hd Hl).
    rewrite GetAllAvailableBrowsers_run in Hstore. cbn [snd] in Hstore.
    injection Hstore as <-. done.
  - intros d d' Hd Hd' Hk. specialize (Hkeys d d' Hd Hd' Hk).
    rewrite !GetAllAvailableBrowsers_run in Hkeys. cbn [snd] in Hkeys.
    by injection Hkeys.
  - rewrite Hrun. rewrite GetAllAvailableBrowserTypes_eq. reflexivity.
Qed.

End ThroughCache.

Import Sample.

(** A device listed twice, the store empty: the backends are asked one
    round, not two. *)
Example repeated_device_sample :
  (GetAllAvailableBrowserTypes_through_cache two_defaults devices_0_0
     device_key ∅ (options None None None)).2
  = ([GetDevicesMatchingOptions_call;
      FindAllAvailableBrowsers_call desktop_browser_finder (Some 0%nat);
      FindAllAvailableBrowsers_call android_browser_finder (Some 0%nat);
      FindAllAvailableBrowsers_call cros_browser_finder (Some 0%nat)],
     inr ["reference"; "release"]).
Proof. vm_compute. reflexivity. Qed.

(** A second call in the same process: the store of the first call
    makes the second ask no backend, and the list is the same. *)
Lemma GetAllAvailableBrowserTypes_through_cache_value_witness :
  let o := options None None None in
  let store :=
    (GetAllAvailableBrowserTypes_through_cache two_defaults devices_0_1
       device_key ∅ o).1 in
  (GetAllAvailableBrowserTypes_through_cache two_defaults devices_0_1
     device_key store o).2.2
  = (GetAllAvailableBrowserTypes two_defaults devices_0_1 o).2.
Proof.
  apply (GetAllAvailableBrowserTypes_through_cache_value two_defaults
           devices_0_1 device_key
           (GetAllAvailableBrowserTypes_through_cache two_defaults
              devices_0_1 device_key ∅ (options None None None)).1
           (options None None None)).
  - intros device l Hd Hl. apply list_elem_of_In in Hd. simpl in Hd.
    destruct Hd as [<-|[<-|[]]]; vm_compute in Hl; injection Hl as <-;
      reflexivity.
  - intros d d' Hd Hd' Hk.
    apply list_elem_of_In in Hd. apply list_elem_of_In in Hd'.
    simpl in Hd, Hd'.
    destruct Hd as [<-|[<-|[]]]; destruct Hd' as [<-|[<-|[]]];
      first [reflexivity | vm_compute in Hk; discriminate Hk].
Defined.

Example second_call_sample :
  let o := options None None None in
  let store :=
    (GetAllAvailableBrowserTypes_through_cache two_defaults devices_0_1
       device_key ∅ o).1 in
  (GetAllAvailableBrowserTypes_through_cache two_defaults devices_0_1
     device_key store o).2
  = ([GetDevicesMatchingOptions_call],
     inr ["android-chromium"; "reference"; "release"]).
Proof. vm_compute. reflexivity. Qed.
